(** * BreachGuard: the [/api/check] handler of [main.py] and the models of
    [schemas.py], as a shallow embedding.

    Python values are an inductive type, dictionaries are finite maps with
    string keys, exceptions are an error monad, and the collaborators the
    handler calls ([os.getenv], [requests.get], [create_document],
    [datetime.utcnow], pydantic) are the variables of a section. *)

From Stdlib Require Import ZArith String Ascii List Bool Lia.
From stdpp Require Import base option list strings gmap fin_maps.

Local Open Scope string_scope.
Local Open Scope Z_scope.
Set Warnings "-register-all".

(** ** Python values *)

(** The values [resp.json()] can return and a dict literal can hold: [None],
    booleans, integers, strings, lists and dicts keyed by strings.  JSON
    numbers with a fractional part are outside the model. *)
Inductive pyval : Type :=
  | PNone
  | PBool (b : bool)
  | PInt (n : Z)
  | PStr (s : string)
  | PList (l : list pyval)
  | PDict (d : gmap string pyval).

(** [bool(v)]: the truth value Python's [or], [if] and [not] test. *)
Definition truthy (v : pyval) : bool :=
  match v with
  | PNone => false
  | PBool b => b
  | PInt n => negb (n =? 0)
  | PStr s => negb (String.eqb s EmptyString)
  | PList l => match l with [] => false | _ :: _ => true end
  | PDict d => match map_to_list d with [] => false | _ :: _ => true end
  end.

(** [a or b]: [a] when it is truthy, otherwise [b], whatever [b] is. *)
Definition py_or (a b : pyval) : pyval :=
  if truthy a then a else b.

(** [v is not None]. *)
Definition is_not_None (v : pyval) : bool :=
  match v with PNone => false | _ => true end.

(** [d.get(k)]: the value under [k], [None] when [k] is not a key. *)
Definition dict_get (d : gmap string pyval) (k : string) : pyval :=
  default PNone (d !! k).

(** [type(v).__name__], as it appears in the interpreter's messages. *)
Definition type_name (v : pyval) : string :=
  match v with
  | PNone => "NoneType"
  | PBool _ => "bool"
  | PInt _ => "int"
  | PStr _ => "str"
  | PList _ => "list"
  | PDict _ => "dict"
  end.

(** ** Strings *)

(** [s[:n]]: the first [n] characters, all of [s] when it is shorter. *)
Fixpoint py_prefix (n : nat) (s : string) : string :=
  match n, s with
  | S n', String c s' => String c (py_prefix n' s')
  | _, _ => EmptyString
  end.

(** [s.split(sep)] for a one-character separator: never the empty list. *)
Fixpoint py_split (sep : ascii) (s : string) : list string :=
  match s with
  | EmptyString => [EmptyString]
  | String c s' =>
      if Ascii.eqb c sep then EmptyString :: py_split sep s'
      else match py_split sep s' with
           | [] => [String c EmptyString]
           | h :: t => String c h :: t
           end
  end.

(** [l[-1]] of a list of strings known to be non-empty. *)
Definition py_last (l : list string) : string := List.last l EmptyString.

(** [sep.join(l)] for a one-character separator. *)
Fixpoint py_join (sep : ascii) (l : list string) : string :=
  match l with
  | [] => EmptyString
  | [x] => x
  | x :: l' => x +:+ String sep (py_join sep l')
  end.

Definition lower_ascii (c : ascii) : ascii :=
  let n := nat_of_ascii c in
  if (65 <=? n)%nat && (n <=? 90)%nat then ascii_of_nat (n + 32) else c.

(** [s.lower()], on the letters A to Z; every other character of the
    model's strings is left as it is. *)
Fixpoint py_lower (s : string) : string :=
  match s with
  | EmptyString => EmptyString
  | String c s' => String (lower_ascii c) (py_lower s')
  end.

(** ** Exceptions *)

(** What the handler can see raised: FastAPI's [HTTPException], and every
    other [Exception], of which the handler only uses [str(e)]. *)
Inductive exn : Type :=
  | HTTPException (status_code : Z) (detail : string)
  | Exception (msg : string).

Inductive except (A : Type) : Type :=
  | Return (a : A)
  | Raise (e : exn).
Arguments Return {A} a.
Arguments Raise {A} e.

#[global] Instance except_ret : MRet except := λ A a, Return a.
#[global] Instance except_bind : MBind except := λ A B k m,
  match m with
  | Return a => k a
  | Raise e => Raise e
  end.

(** The handler's monad: exceptions over the state of the database that
    [create_document] writes to. *)
Definition M (DB A : Type) : Type := DB → except A * DB.

#[global] Instance M_ret {DB} : MRet (M DB) := λ A a db, (Return a, db).
#[global] Instance M_bind {DB} : MBind (M DB) := λ A B k m db,
  match m db with
  | (Return a, db') => k a db'
  | (Raise e, db') => (Raise e, db')
  end.

(** A computation that does not touch the database. *)
Definition lift {DB A} (m : except A) : M DB A := λ db, (m, db).

(** [try: m  except HTTPException: raise  except Exception as e: h e]. *)
Definition try_except {DB A} (m : M DB A) (h : string → M DB A) : M DB A :=
  λ db,
    match m db with
    | (Return a, db') => (Return a, db')
    | (Raise (HTTPException c d), db') => (Raise (HTTPException c d), db')
    | (Raise (Exception msg), db') => h msg db'
    end.

(** [try: m  except Exception as e: pass].  [HTTPException] is a subclass
    of [Exception], so it is swallowed as well. *)
Definition try_pass {DB} (m : M DB ()) : M DB () :=
  λ db,
    match m db with
    | (Return u, db') => (Return u, db')
    | (Raise _, db') => (Return (), db')
    end.

(** ** [schemas.py] *)

Record Breach : Type := mkBreach {
  name : string;
  domain : option string;
  breachDate : option string;
  addedDate : option string;
  pwnCount : option Z;
  description : option string;
  dataClasses : option (list string);
  isVerified : option bool
}.

Record Check : Type := mkCheck {
  email : string;
  found : bool;
  count : Z;
  breaches : list Breach;
  source : string;
  is_demo : bool;
  checked_at : Z
}.

(** ** [main.py]: request and response models *)

Module EmailCheckRequest.
Record t : Type := mk { email : string }.
End EmailCheckRequest.

Module EmailCheckResponse.
Record t : Type := mk {
  email : string;
  found : bool;
  count : Z;
  breaches : list Breach;
  source : string;
  is_demo : bool
}.
End EmailCheckResponse.

(** ** Collaborators *)

(** The arguments of [requests.get(url, headers=, params=, timeout=)]. *)
Record Request : Type := mkRequest {
  url : string;
  headers : gmap string string;
  params : gmap string string;
  timeout : Z
}.

(** What the handler reads of a [requests.Response]: [status_code], [text]
    and the outcome of [json()], which raises on a body that is not JSON. *)
Record Response : Type := mkResponse {
  status_code : Z;
  text : string;
  json : except pyval
}.

(** [resp.ok] of the requests library: [raise_for_status()] does not raise,
    which it does exactly for the statuses from 400 to 599. *)
Definition ok (resp : Response) : bool :=
  negb ((400 <=? status_code resp) && (status_code resp <? 600)).

(** Pydantic's validation of one argument against a field type.  The
    library is not part of the repository: its coercions are left open, and
    [PydanticExact] states the one thing every version does, accepting a
    value that already has the declared type as it is. *)
Class Pydantic : Type := {
  validate_str : pyval → option string;
  validate_int : pyval → option Z;
  validate_bool : pyval → option bool;
  validate_list_str : pyval → option (list string);
  (** [str(e)] of the [ValidationError] raised for these arguments *)
  validation_error : list pyval → string;
  (** [EmailStr]: the address as the library writes it, [None] when it
      raises [ValidationError] *)
  validate_email : string → option string;
  (** [str(e)] of the [ValidationError] raised for this address *)
  email_error : string → string
}.

Class PydanticExact (P : Pydantic) : Prop := {
  validate_str_exact : ∀ s, validate_str (PStr s) = Some s;
  validate_int_exact : ∀ n, validate_int (PInt n) = Some n;
  validate_bool_exact : ∀ b, validate_bool (PBool b) = Some b;
  validate_list_str_exact :
    ∀ l, validate_list_str (PList (PStr <$> l)) = Some l
}.

(** A field of type [Optional[T]]: [None] is accepted, anything else is
    validated as a [T]. *)
Definition validate_optional {A} (f : pyval → option A) (v : pyval)
    : option (option A) :=
  match v with
  | PNone => Some None
  | _ => Some <$> f v
  end.

(** The validator that accepts exactly the values of the declared type. *)
Definition as_str (v : pyval) : option string :=
  match v with PStr s => Some s | _ => None end.

Definition strict_list_str (v : pyval) : option (list string) :=
  match v with PList l => mapM as_str l | _ => None end.

(** An [EmailStr] for the runs below: one '@' between a non-empty local
    part and a non-empty domain, the domain written in lower case. *)
Definition strict_email (s : string) : option string :=
  match py_split "@" s with
  | [user; host] =>
      if String.eqb user EmptyString || String.eqb host EmptyString then None
      else Some (user +:+ String "@" (py_lower host))
  | _ => None
  end.

Definition strict : Pydantic := {|
  validate_str := as_str;
  validate_int v := match v with PInt n => Some n | _ => None end;
  validate_bool v := match v with PBool b => Some b | _ => None end;
  validate_list_str := strict_list_str;
  validation_error _ := "validation error for Breach";
  validate_email := strict_email;
  email_error _ := "value is not a valid email address"
|}.

(** [bool(os.getenv(..))]: set and not the empty string. *)
Definition str_truthy (o : option string) : bool :=
  match o with
  | Some k => negb (String.eqb k EmptyString)
  | None => false
  end.

(** [for b in v]: the elements of a list, the keys of a dict, the
    characters of a string; anything else is not iterable. *)
Definition py_iter (v : pyval) : except (list pyval) :=
  match v with
  | PList l => Return l
  | PDict d => Return ((λ kv, PStr kv.1) <$> map_to_list d)
  | PStr s => Return ((λ c, PStr (String c EmptyString)) <$> list_ascii_of_string s)
  | _ => Raise (Exception ("'" +:+ type_name v +:+ "' object is not iterable"))
  end.

(** The raw record of the demo branch (lines 77-86). *)
Definition demo_record (domain : string) : pyval :=
  PDict (list_to_map [
    ("Name", PStr "ExampleBreach");
    ("Domain", PStr domain);
    ("BreachDate", PStr "2023-09-10");
    ("AddedDate", PStr "2023-10-01");
    ("PwnCount", PInt 12345);
    ("Description", PStr "Sample demo breach to showcase UI.");
    ("DataClasses", PList [PStr "Email addresses"; PStr "Passwords"]);
    ("IsVerified", PBool true)
  ]).

(** The [Breach] the demo record stands for. *)
Definition demo_breach (domain : string) : Breach :=
  {| name := "ExampleBreach";
     domain := Some domain;
     breachDate := Some "2023-09-10";
     addedDate := Some "2023-10-01";
     pwnCount := Some 12345;
     description := Some "Sample demo breach to showcase UI.";
     dataClasses := Some ["Email addresses"; "Passwords"];
     isVerified := Some true |}.

(** The demo branch (lines 74-89). *)
Definition demo_breaches_raw (email : string) : pyval :=
  let domain := py_lower (py_last (py_split "@" email)) in
  if bool_decide (domain ∈ ({[ "example.com"; "test.com" ]} : gset string))
  then PList [demo_record domain]
  else PList [].

(** The keyword arguments of [Breach(..)], lines 95-102, for a record [b]
    that is the dict [d]. *)
Definition name_arg (d : gmap string pyval) : pyval :=
  py_or (py_or (dict_get d "Name") (dict_get d "name")) (PStr "Unknown").

Definition domain_arg (d : gmap string pyval) : pyval :=
  py_or (dict_get d "Domain") (dict_get d "domain").

Definition breachDate_arg (d : gmap string pyval) : pyval :=
  py_or (dict_get d "BreachDate") (dict_get d "breachDate").

Definition addedDate_arg (d : gmap string pyval) : pyval :=
  py_or (dict_get d "AddedDate") (dict_get d "addedDate").

Definition pwnCount_arg (d : gmap string pyval) : pyval :=
  py_or (dict_get d "PwnCount") (dict_get d "pwnCount").

Definition description_arg (d : gmap string pyval) : pyval :=
  py_or (dict_get d "Description") (dict_get d "description").

Definition dataClasses_arg (d : gmap string pyval) : pyval :=
  py_or (py_or (dict_get d "DataClasses") (dict_get d "dataClasses"))
    (PList []).

Definition isVerified_arg (d : gmap string pyval) : pyval :=
  if is_not_None (dict_get d "IsVerified") then dict_get d "IsVerified"
  else dict_get d "isVerified".

(** The keys the normalizer reads. *)
Definition breach_keys : list string :=
  ["Name"; "name"; "Domain"; "domain"; "BreachDate"; "breachDate";
   "AddedDate"; "addedDate"; "PwnCount"; "pwnCount";
   "Description"; "description"; "DataClasses"; "dataClasses";
   "IsVerified"; "isVerified"].

(** Lines 47-54 and 65: the call made to the upstream when a key is set. *)
Definition hibp_request (hibp_key email : string) : Request :=
  let headers : gmap string string := {[ "User-Agent" := "BreachGuard/1.0" ]} in
  let headers := <[ "hibp-api-key" := hibp_key ]> headers in
  let url := "https://haveibeenpwned.com/api/v3/breachedaccount/" +:+ email in
  let params : gmap string string := {[ "truncateResponse" := "false" ]} in
  mkRequest url headers params 12.

Section Handler.
Context {P : Pydantic}.
(** [os.getenv] *)
Variable getenv : string → option string.
(** [requests.get] *)
Variable requests_get : Request → except Response.
(** [database.create_document], over the state of the database; it reads
    the document it is handed and leaves it as it is *)
Variable DB : Type.
Variable create_document : string → Check → M DB ().
(** [datetime.utcnow()] *)
Variable utcnow : Z.

(** [Breach(name=.., .., isVerified=..)]: every argument is validated
    against its field of [schemas.py]. *)
Definition Breach_init
    (name domain breachDate addedDate pwnCount description dataClasses
     isVerified : pyval) : except Breach :=
  let validated :=
    n ← validate_str name;
    d ← validate_optional validate_str domain;
    bd ← validate_optional validate_str breachDate;
    ad ← validate_optional validate_str addedDate;
    pc ← validate_optional validate_int pwnCount;
    ds ← validate_optional validate_str description;
    dc ← validate_optional validate_list_str dataClasses;
    iv ← validate_optional validate_bool isVerified;
    Some (mkBreach n d bd ad pc ds dc iv) in
  match validated with
  | Some b => Return b
  | None =>
      Raise (Exception (validation_error
        [name; domain; breachDate; addedDate; pwnCount; description;
         dataClasses; isVerified]))
  end.

(** The body of the loop (lines 93-104).  Every [b.get] is a call on the
    same [b]: on a dict none of them raises, on anything else the first
    one raises [AttributeError]. *)
Definition normalize (b : pyval) : except Breach :=
  match b with
  | PDict d =>
      Breach_init (name_arg d) (domain_arg d) (breachDate_arg d)
        (addedDate_arg d) (pwnCount_arg d) (description_arg d)
        (dataClasses_arg d) (isVerified_arg d)
  | _ =>
      Raise (Exception
        ("'" +:+ type_name b +:+ "' object has no attribute 'get'"))
  end.

(** Lines 64-89: the raw breaches of the upstream, or of the demo data.
    [url] is set exactly when [hibp_key] is truthy, and then it is a
    non-empty string, so [if url:] is [if hibp_key:]. *)
Definition lookup (email : string) : except pyval :=
  let hibp_key := getenv "HIBP_API_KEY" in
  if str_truthy hibp_key then
    resp ← requests_get (hibp_request (default EmptyString hibp_key) email);
    if status_code resp =? 404 then mret (PList [])
    else if ok resp then json resp
    else Raise (HTTPException (status_code resp) (py_prefix 200 (text resp)))
  else mret (demo_breaches_raw email).

(** Lines 92-104: one [Breach] per raw record, appended in order. *)
Definition normalize_all (breaches_raw : pyval) : except (list Breach) :=
  items ← py_iter breaches_raw;
  mapM normalize items.

(** Lines 106-113. *)
Definition make_check (email : string) (breaches : list Breach) : Check :=
  let hibp_key := getenv "HIBP_API_KEY" in
  {| email := email;
     found := 0 <? Z.of_nat (length breaches);
     count := Z.of_nat (length breaches);
     breaches := breaches;
     source := if str_truthy hibp_key then "hibp" else "demo";
     is_demo := negb (str_truthy hibp_key);
     checked_at := utcnow |}.

(** Lines 122-129: [EmailCheckResponse(email=email, ..)].  Its [email]
    field is an [EmailStr] (line 24), so the address is validated once
    more: the response carries it as the library writes it, and an address
    the library refuses raises.  The other arguments come from [result]
    with the types of their fields. *)
Definition make_response (email : string) (result : Check)
    : except EmailCheckResponse.t :=
  match validate_email email with
  | Some email' =>
      Return {| EmailCheckResponse.email := email';
                EmailCheckResponse.found := found result;
                EmailCheckResponse.count := count result;
                EmailCheckResponse.breaches := breaches result;
                EmailCheckResponse.source := source result;
                EmailCheckResponse.is_demo := is_demo result |}
  | None => Raise (Exception (email_error email))
  end.

(** The handler of [POST /api/check].  [payload.email] is an [EmailStr]
    too (line 21): the requests FastAPI hands over hold an address the
    library has written. *)
Definition check_email_breaches (payload : EmailCheckRequest.t)
    : M DB EmailCheckResponse.t :=
  let email := EmailCheckRequest.email payload in
  try_except
    (breaches_raw ← lift (lookup email);
     breaches ← lift (normalize_all breaches_raw);
     let result := make_check email breaches in
     _ ← try_pass (create_document "check" result);
     lift (make_response email result))
    (λ msg, lift (Raise (HTTPException 500 (py_prefix 200 msg)))).
End Handler.

(** ** Records in either casing

    The upstream spells the key of a field in upper camel case, other
    sources in lower camel case, and a record may mix the two. *)

Inductive field : Type :=
  | F_name | F_domain | F_breachDate | F_addedDate
  | F_pwnCount | F_description | F_dataClasses | F_isVerified.

Inductive casing : Type := UpperCamel | LowerCamel.

#[global] Instance field_eq_dec : EqDecision field.
Proof. solve_decision. Defined.

#[global] Instance casing_eq_dec : EqDecision casing.
Proof. solve_decision. Defined.

(** The key under which the normalizer looks for a field. *)
Definition key (c : casing) (f : field) : string :=
  match c, f with
  | UpperCamel, F_name => "Name"
  | LowerCamel, F_name => "name"
  | UpperCamel, F_domain => "Domain"
  | LowerCamel, F_domain => "domain"
  | UpperCamel, F_breachDate => "BreachDate"
  | LowerCamel, F_breachDate => "breachDate"
  | UpperCamel, F_addedDate => "AddedDate"
  | LowerCamel, F_addedDate => "addedDate"
  | UpperCamel, F_pwnCount => "PwnCount"
  | LowerCamel, F_pwnCount => "pwnCount"
  | UpperCamel, F_description => "Description"
  | LowerCamel, F_description => "description"
  | UpperCamel, F_dataClasses => "DataClasses"
  | LowerCamel, F_dataClasses => "dataClasses"
  | UpperCamel, F_isVerified => "IsVerified"
  | LowerCamel, F_isVerified => "isVerified"
  end.

Definition fields : list field :=
  [F_name; F_domain; F_breachDate; F_addedDate;
   F_pwnCount; F_description; F_dataClasses; F_isVerified].

(** The record that carries the value [vals f] of every field [f] that has
    one, under the key of [f] in the casing [c f], next to the keys of
    [extra]. *)
Definition spelled (c : field → casing) (vals : field → option pyval)
    (extra : gmap string pyval) : gmap string pyval :=
  foldr (λ f m, match vals f with
                | Some v => <[ key (c f) f := v ]> m
                | None => m
                end) extra fields.

(** The fields whose argument is [upper or lower], with no default. *)
Definition or_fields : list field :=
  [F_domain; F_breachDate; F_addedDate; F_pwnCount; F_description].

(** ** A [Breach] as a raw record

    The values a [Breach] is written out to, field by field, as the
    service's own JSON has them: a string, an integer, a list of strings or
    a boolean.  A field that is [None] is either left out ([omit f]) or
    written as [null]. *)

Definition written (omit : bool) (v : option pyval) : option pyval :=
  match v with
  | Some v => Some v
  | None => if omit then None else Some PNone
  end.

Definition breach_vals (omit : field → bool) (b : Breach) (f : field)
    : option pyval :=
  match f with
  | F_name => Some (PStr (name b))
  | F_domain => written (omit f) (PStr <$> domain b)
  | F_breachDate => written (omit f) (PStr <$> breachDate b)
  | F_addedDate => written (omit f) (PStr <$> addedDate b)
  | F_pwnCount => written (omit f) (PInt <$> pwnCount b)
  | F_description => written (omit f) (PStr <$> description b)
  | F_dataClasses =>
      written (omit f) ((λ l, PList (PStr <$> l)) <$> dataClasses b)
  | F_isVerified => written (omit f) (PBool <$> isVerified b)
  end.

(** ** Concrete collaborators

    Instances of the section variables, for running the handler. *)

(** No environment variable is set. *)
Definition no_key : string → option string := λ _, None.

(** Only [HIBP_API_KEY] is set, to [key]. *)
Definition with_key (key : string) : string → option string :=
  λ var, if String.eqb var "HIBP_API_KEY" then Some key else None.

(** An upstream with the same outcome for every request. *)
Definition upstream (outcome : except Response) : Request → except Response :=
  λ _, outcome.

(** A database that keeps the documents handed to it. *)
Definition db_store : string → Check → M (list Check) () :=
  λ _ doc db, (Return (), (db ++ [doc])%list).

(** A database that is not available. *)
Definition db_unavailable : string → Check → M (list Check) () :=
  λ _ _ db, (Raise (Exception "database not available"), db).

Lemma mapM_as_str (l : list string) : mapM as_str (PStr <$> l) = Some l.
Proof.
  apply mapM_Some. induction l as [|s l IH]; simpl; by constructor.
Qed.

#[global] Instance strict_exact : PydanticExact strict.
Proof. split; try done. intros l. apply mapM_as_str. Qed.

(** ** Helper lemmas *)

Lemma py_prefix_length (n : nat) (s : string) :
  (String.length (py_prefix n s) ≤ n)%nat.
Proof.
  revert s. induction n as [|n IH]; intros [|c s]; simpl; try lia.
  specialize (IH s). lia.
Qed.

Lemma py_prefix_short (n : nat) (s : string) :
  (String.length s ≤ n)%nat → py_prefix n s = s.
Proof.
  revert s. induction n as [|n IH]; intros [|c s]; simpl; try done; try lia.
  intros Hle. f_equal. apply IH. lia.
Qed.

(** The loop succeeds exactly when every record normalizes, and then the
    results stand in the order of the records. *)
Lemma except_bind_Return {A B} (a : A) (k : A → except B) :
  Return a ≫= k = k a.
Proof. done. Qed.

Lemma except_bind_Raise {A B} (e : exn) (k : A → except B) :
  Raise e ≫= k = Raise e.
Proof. done. Qed.

Lemma mapM_except_cons {A B} (f : A → except B) (x : A) (l : list A) :
  mapM f (x :: l) =
    match f x with
    | Return y =>
        match mapM f l with
        | Return k => Return (y :: k)
        | Raise e => Raise e
        end
    | Raise e => Raise e
    end.
Proof. done. Qed.

Lemma mapM_except_Forall2 {A B} (f : A → except B) (l : list A) (k : list B) :
  mapM f l = Return k ↔ Forall2 (λ x y, f x = Return y) l k.
Proof.
  revert k. induction l as [|x l IH]; intros k.
  - split.
    + intros [= <-]. constructor.
    + by inversion 1.
  - rewrite mapM_except_cons. split.
    + destruct (f x) as [y|e] eqn:Hfx; [|done].
      destruct (mapM f l) as [k'|e]; [|done].
      intros [= <-]. constructor; [done|]. by apply IH.
    + inversion 1 as [|? y ? k' Hy Hk]; subst.
      apply IH in Hk. by rewrite Hy, Hk.
Qed.

Section Handler_properties.
Context {P : Pydantic}.
Variable getenv : string → option string.
Variable requests_get : Request → except Response.
Variable DB : Type.
Variable create_document : string → Check → M DB ().
Variable utcnow : Z.

Abbreviation handler :=
  (check_email_breaches getenv requests_get DB create_document utcnow).
Abbreviation result_of email bs := (make_check getenv utcnow email bs).

(** The handler, by the outcome of everything before the persistence
    step and by that of the response's construction after it. *)
Lemma check_email_breaches_cases (email : string) (db : DB) :
  handler (EmailCheckRequest.mk email) db =
    match lookup getenv requests_get email ≫= normalize_all with
    | Return bs =>
        let db' := (create_document "check" (result_of email bs) db).2 in
        match make_response email (result_of email bs) with
        | Return resp => (Return resp, db')
        | Raise (HTTPException c d) => (Raise (HTTPException c d), db')
        | Raise (Exception msg) =>
            (Raise (HTTPException 500 (py_prefix 200 msg)), db')
        end
    | Raise (HTTPException c d) => (Raise (HTTPException c d), db)
    | Raise (Exception msg) =>
        (Raise (HTTPException 500 (py_prefix 200 msg)), db)
    end.
Proof.
  unfold check_email_breaches, try_except, try_pass, lift; simpl.
  unfold mbind at 1, M_bind at 1.
  destruct (lookup getenv requests_get email) as [raw|[c d|msg]]; simpl;
    try done.
  unfold mbind at 1, M_bind at 1.
  destruct (normalize_all raw) as [bs|[c d|msg]]; simpl; try done.
  unfold mbind at 1, M_bind at 1.
  destruct (create_document "check" (result_of email bs) db)
    as [[[]|e] db']; simpl;
    by destruct (make_response email (result_of email bs)) as [resp|[c d|msg]].
Qed.

(** The response of a request whose address the library writes as
    [email']. *)
Lemma make_response_accepted (email email' : string) (result : Check) :
  validate_email email = Some email' →
  make_response email result
    = Return (EmailCheckResponse.mk email' (found result) (count result)
                (breaches result) (source result) (is_demo result)).
Proof. unfold make_response. by intros ->. Qed.

Lemma make_response_Return (email : string) (result : Check)
    (resp : EmailCheckResponse.t) :
  make_response email result = Return resp →
  validate_email email = Some (EmailCheckResponse.email resp)
  ∧ resp = EmailCheckResponse.mk (EmailCheckResponse.email resp)
             (found result) (count result) (breaches result) (source result)
             (is_demo result).
Proof.
  unfold make_response. destruct (validate_email email) as [email'|]; [|done].
  by intros [= <-].
Qed.

(** The handler on a request whose address the library writes as
    [email']. *)
Lemma check_email_breaches_accepted (email email' : string) (db : DB) :
  validate_email email = Some email' →
  handler (EmailCheckRequest.mk email) db =
    match lookup getenv requests_get email ≫= normalize_all with
    | Return bs =>
        (Return (EmailCheckResponse.mk email' (found (result_of email bs))
                   (count (result_of email bs)) (breaches (result_of email bs))
                   (source (result_of email bs))
                   (is_demo (result_of email bs))),
         (create_document "check" (result_of email bs) db).2)
    | Raise (HTTPException c d) => (Raise (HTTPException c d), db)
    | Raise (Exception msg) =>
        (Raise (HTTPException 500 (py_prefix 200 msg)), db)
    end.
Proof.
  intros Hvalid. rewrite check_email_breaches_cases.
  destruct (lookup getenv requests_get email ≫= normalize_all) as [bs|e];
    [|done].
  by rewrite (make_response_accepted _ _ _ Hvalid).
Qed.

(** C2: every response the handler produces has [count] equal to the length
    of [breaches], [found] equal to [count > 0], and [is_demo] equal to
    [source == "demo"]. *)
Theorem response_invariants (payload : EmailCheckRequest.t) (db db' : DB)
    (resp : EmailCheckResponse.t) :
  handler payload db = (Return resp, db') →
  EmailCheckResponse.count resp
    = Z.of_nat (length (EmailCheckResponse.breaches resp))
  ∧ EmailCheckResponse.found resp
    = bool_decide (0 < EmailCheckResponse.count resp)
  ∧ EmailCheckResponse.is_demo resp
    = bool_decide (EmailCheckResponse.source resp = "demo").
Proof.
  destruct payload as [email]. rewrite check_email_breaches_cases.
  destruct (lookup getenv requests_get email ≫= normalize_all)
    as [bs|[c d|msg]]; [|done..].
  cbn zeta.
  destruct (make_response email (result_of email bs)) as [r|[c d|msg]]
    eqn:Hresp; [|done..].
  apply make_response_Return in Hresp as [_ Hresp].
  intros [= <- _]. rewrite Hresp; simpl. split_and!; [done| |].
  - destruct (Z.ltb_spec 0 (Z.of_nat (length bs)));
      symmetry; [by apply bool_decide_eq_true|by apply bool_decide_eq_false; lia].
  - by destruct (str_truthy (getenv "HIBP_API_KEY")).
Qed.

(** C6: with a key set, an upstream answer with status 404 is no error: the
    handler returns a response with [found = false], [count = 0], no
    breaches and [source = "hibp"].  The address of the request is one the
    library has written, which it writes again as it is. *)
Theorem upstream_404_is_no_breaches (email key : string) (resp : Response)
    (db : DB) :
  validate_email email = Some email →
  getenv "HIBP_API_KEY" = Some key →
  key ≠ EmptyString →
  requests_get (hibp_request key email) = Return resp →
  status_code resp = 404 →
  (handler (EmailCheckRequest.mk email) db).1
    = Return (EmailCheckResponse.mk email false 0 [] "hibp" false).
Proof.
  intros Hvalid Hkey Hne Hget H404.
  rewrite (check_email_breaches_accepted _ _ _ Hvalid).
  unfold lookup, make_check.
  rewrite Hkey; simpl.
  assert (String.eqb key EmptyString = false) as -> by by apply String.eqb_neq.
  simpl. rewrite Hget, except_bind_Return. by rewrite H404.
Qed.
End Handler_properties.

(** C3: once the lookup and the normalization have succeeded, so that the
    persistence step is reached, a [create_document] that raises does not
    change the outcome: the handler returns the response built from the
    [Check], the one it returns when [create_document] succeeds.  The
    address of the request is one the library has written, which it writes
    again as it is. *)
Theorem persistence_failure_swallowed {P : Pydantic}
    (getenv : string → option string)
    (requests_get : Request → except Response) (utcnow : Z)
    (DB : Type) (create_document : string → Check → M DB ())
    (email : string) (raw : pyval) (bs : list Breach) (db : DB) (e : exn) :
  let result := make_check getenv utcnow email bs in
  let handler := check_email_breaches getenv requests_get in
  validate_email email = Some email →
  lookup getenv requests_get email = Return raw →
  normalize_all raw = Return bs →
  (create_document "check" result db).1 = Raise e →
  (handler DB create_document utcnow (EmailCheckRequest.mk email) db).1
    = Return (EmailCheckResponse.mk email (found result) (count result)
                (breaches result) (source result) (is_demo result))
  ∧ ∀ DB' (create_ok : string → Check → M DB' ()) (db' : DB'),
      (create_ok "check" result db').1 = Return () →
      (handler DB' create_ok utcnow (EmailCheckRequest.mk email) db').1
        = (handler DB create_document utcnow (EmailCheckRequest.mk email) db).1.
Proof.
  intros result handler Hvalid Hraw Hbs _.
  assert (∀ DB' (cd : string → Check → M DB' ()) (db' : DB'),
    (check_email_breaches getenv requests_get DB' cd utcnow
       (EmailCheckRequest.mk email) db').1
      = Return (EmailCheckResponse.mk email (found result) (count result)
                  (breaches result) (source result) (is_demo result)))
    as Hany.
  { intros DB' cd db'.
    rewrite (check_email_breaches_accepted _ _ _ _ _ _ _ _ Hvalid), Hraw.
    by rewrite except_bind_Return, Hbs. }
  split; [apply Hany|]. intros DB' create_ok db' _. unfold handler.
  by rewrite !Hany.
Qed.


Section Lookup_properties.
Context {P : Pydantic}.
Variable getenv : string → option string.
Variable requests_get : Request → except Response.
Variable DB : Type.
Variable create_document : string → Check → M DB ().
Variable utcnow : Z.

Abbreviation handler :=
  (check_email_breaches getenv requests_get DB create_document utcnow).

Lemma lookup_with_key (email key : string) :
  getenv "HIBP_API_KEY" = Some key →
  key ≠ EmptyString →
  lookup getenv requests_get email =
    match requests_get (hibp_request key email) with
    | Return resp =>
        if status_code resp =? 404 then Return (PList [])
        else if ok resp then json resp
        else Raise (HTTPException (status_code resp)
                      (py_prefix 200 (text resp)))
    | Raise e => Raise e
    end.
Proof.
  intros Hkey Hne. unfold lookup. rewrite Hkey; simpl.
  by assert (String.eqb key EmptyString = false) as ->
    by by apply String.eqb_neq.
Qed.

Lemma lookup_without_key (email : string) :
  str_truthy (getenv "HIBP_API_KEY") = false →
  lookup getenv requests_get email = Return (demo_breaches_raw email).
Proof. intros Hkey. unfold lookup. by rewrite Hkey. Qed.

(** C4, as the code has it: with a key set, an upstream status from 400 to
    599 other than 404 fails the request with that status and the first 200
    characters of the body as detail; an exception raised by [requests.get]
    fails it with status 500 and the first 200 characters of its message;
    any other status than these and 404 is read as JSON like a 2xx one. *)
Theorem upstream_failure_reported (email key : string) (db : DB) :
  getenv "HIBP_API_KEY" = Some key →
  key ≠ EmptyString →
  (∀ resp,
     requests_get (hibp_request key email) = Return resp →
     status_code resp ≠ 404 →
     400 ≤ status_code resp < 600 →
     handler (EmailCheckRequest.mk email) db
       = (Raise (HTTPException (status_code resp)
                   (py_prefix 200 (text resp))), db)
     ∧ (String.length (py_prefix 200 (text resp)) ≤ 200)%nat)
  ∧ (∀ msg,
     requests_get (hibp_request key email) = Raise (Exception msg) →
     handler (EmailCheckRequest.mk email) db
       = (Raise (HTTPException 500 (py_prefix 200 msg)), db)
     ∧ (String.length (py_prefix 200 msg) ≤ 200)%nat)
  ∧ (∀ resp,
     requests_get (hibp_request key email) = Return resp →
     status_code resp ≠ 404 →
     ¬ 400 ≤ status_code resp < 600 →
     lookup getenv requests_get email = json resp).
Proof.
  intros Hkey Hne. split_and!.
  - intros resp Hget H404 Herr. split; [|apply py_prefix_length].
    rewrite check_email_breaches_cases, (lookup_with_key _ _ Hkey Hne), Hget.
    apply Z.eqb_neq in H404 as ->. unfold ok.
    assert ((400 <=? status_code resp) && (status_code resp <? 600) = true)
      as -> by (apply andb_true_iff; lia).
    done.
  - intros msg Hget. split; [|apply py_prefix_length].
    by rewrite check_email_breaches_cases, (lookup_with_key _ _ Hkey Hne), Hget.
  - intros resp Hget H404 Hok.
    rewrite (lookup_with_key _ _ Hkey Hne), Hget.
    apply Z.eqb_neq in H404 as ->. unfold ok.
    assert ((400 <=? status_code resp) && (status_code resp <? 600) = false)
      as -> by (apply andb_false_iff; lia).
    done.
Qed.

(** The handler returns a response exactly when the lookup gives something
    iterable whose every record normalizes and the response is built. *)
Lemma check_email_breaches_returns (email : string) (db db' : DB)
    (resp : EmailCheckResponse.t) :
  handler (EmailCheckRequest.mk email) db = (Return resp, db') ↔
  ∃ raw items bs,
    lookup getenv requests_get email = Return raw
    ∧ py_iter raw = Return items
    ∧ Forall2 (λ r b, normalize r = Return b) items bs
    ∧ make_response email (make_check getenv utcnow email bs) = Return resp
    ∧ db' = (create_document "check"
               (make_check getenv utcnow email bs) db).2.
Proof.
  rewrite check_email_breaches_cases. split.
  - destruct (lookup getenv requests_get email) as [raw|e] eqn:Hraw;
      [|by destruct e].
    rewrite except_bind_Return. unfold normalize_all.
    destruct (py_iter raw) as [items|e] eqn:Hitems; [|by destruct e].
    rewrite except_bind_Return.
    destruct (mapM normalize items) as [bs|e] eqn:Hbs; [|by destruct e].
    cbn zeta.
    destruct (make_response email (make_check getenv utcnow email bs))
      as [r|[c d|msg]] eqn:Hresp; [|done..].
    intros [= <- <-]. exists raw, items, bs.
    apply mapM_except_Forall2 in Hbs. done.
  - intros (raw & items & bs & -> & Hitems & Hbs & Hresp & ->).
    rewrite except_bind_Return. unfold normalize_all.
    rewrite Hitems, except_bind_Return.
    apply mapM_except_Forall2 in Hbs. by rewrite Hbs, Hresp.
Qed.

(** C9: when the handler returns a response, the records the loop went
    through and the breaches of the response have the same length, the i-th
    breach is the normalization of the i-th record, and the [Check] handed
    to [create_document] carries the same list. *)
Theorem breaches_follow_upstream_order (email : string) (db db' : DB)
    (resp : EmailCheckResponse.t) :
  handler (EmailCheckRequest.mk email) db = (Return resp, db') →
  ∃ raw items,
    lookup getenv requests_get email = Return raw
    ∧ py_iter raw = Return items
    ∧ length (EmailCheckResponse.breaches resp) = length items
    ∧ (∀ i r, items !! i = Some r →
         ∃ b, EmailCheckResponse.breaches resp !! i = Some b
              ∧ normalize r = Return b)
    ∧ let result :=
        make_check getenv utcnow email (EmailCheckResponse.breaches resp) in
      breaches result = EmailCheckResponse.breaches resp
      ∧ db' = (create_document "check" result db).2.
Proof.
  intros (raw & items & bs & Hraw & Hitems & Hbs & Hresp & ->)
    %check_email_breaches_returns.
  apply make_response_Return in Hresp as [_ ->].
  exists raw, items. split_and!; [done|done|..]; simpl.
  - symmetry. by eapply Forall2_length.
  - intros i r Hr.
    destruct (Forall2_lookup_l _ _ _ _ _ Hbs Hr) as (b & Hb & Hnorm).
    by exists b.
  - done.
Qed.
End Lookup_properties.

(** ** The normalizer *)

Lemma py_or_truthy (a b : pyval) : truthy a = true → py_or a b = a.
Proof. unfold py_or. by intros ->. Qed.

Lemma py_or_falsy (a b : pyval) : truthy a = false → py_or a b = b.
Proof. unfold py_or. by intros ->. Qed.

Lemma dict_get_None (d : gmap string pyval) (k : string) :
  d !! k = None → dict_get d k = PNone.
Proof. unfold dict_get. by intros ->. Qed.

Lemma dict_get_Some (d : gmap string pyval) (k : string) (v : pyval) :
  d !! k = Some v → dict_get d k = v.
Proof. unfold dict_get. by intros ->. Qed.

(** A failed validation: no [Breach] comes out, whatever the other
    arguments are. *)
Ltac invalid_argument :=
  split; [done | intros (?&?&?&?&?&?&?&?); discriminate].

Section Normalizer_properties.
Context {P : Pydantic}.

(** A [Breach] is built exactly when every argument passes the validation
    of its field, and then it holds the validated values. *)
Lemma Breach_init_Return (a1 a2 a3 a4 a5 a6 a7 a8 : pyval) (b : Breach) :
  Breach_init a1 a2 a3 a4 a5 a6 a7 a8 = Return b ↔
    validate_str a1 = Some (name b)
    ∧ validate_optional validate_str a2 = Some (domain b)
    ∧ validate_optional validate_str a3 = Some (breachDate b)
    ∧ validate_optional validate_str a4 = Some (addedDate b)
    ∧ validate_optional validate_int a5 = Some (pwnCount b)
    ∧ validate_optional validate_str a6 = Some (description b)
    ∧ validate_optional validate_list_str a7 = Some (dataClasses b)
    ∧ validate_optional validate_bool a8 = Some (isVerified b).
Proof.
  unfold Breach_init. destruct b as [n d bd ad pc ds dc iv]; simpl.
  destruct (validate_str a1) as [n'|]; simpl; [|invalid_argument].
  destruct (validate_optional validate_str a2) as [d'|]; simpl;
    [|invalid_argument].
  destruct (validate_optional validate_str a3) as [bd'|]; simpl;
    [|invalid_argument].
  destruct (validate_optional validate_str a4) as [ad'|]; simpl;
    [|invalid_argument].
  destruct (validate_optional validate_int a5) as [pc'|]; simpl;
    [|invalid_argument].
  destruct (validate_optional validate_str a6) as [ds'|]; simpl;
    [|invalid_argument].
  destruct (validate_optional validate_list_str a7) as [dc'|]; simpl;
    [|invalid_argument].
  destruct (validate_optional validate_bool a8) as [iv'|]; simpl;
    [|invalid_argument].
  split.
  - by intros [= -> -> -> -> -> -> -> ->].
  - intros (?&?&?&?&?&?&?&?). by simplify_eq.
Qed.

Lemma normalize_Return (d : gmap string pyval) (b : Breach) :
  normalize (PDict d) = Return b ↔
    validate_str (name_arg d) = Some (name b)
    ∧ validate_optional validate_str (domain_arg d) = Some (domain b)
    ∧ validate_optional validate_str (breachDate_arg d) = Some (breachDate b)
    ∧ validate_optional validate_str (addedDate_arg d) = Some (addedDate b)
    ∧ validate_optional validate_int (pwnCount_arg d) = Some (pwnCount b)
    ∧ validate_optional validate_str (description_arg d)
        = Some (description b)
    ∧ validate_optional validate_list_str (dataClasses_arg d)
        = Some (dataClasses b)
    ∧ validate_optional validate_bool (isVerified_arg d)
        = Some (isVerified b).
Proof. apply Breach_init_Return. Qed.

Context {E : PydanticExact P}.

Lemma optional_str_exact (s : string) :
  validate_optional validate_str (PStr s) = Some (Some s).
Proof. simpl. by rewrite validate_str_exact. Qed.

Lemma optional_int_exact (n : Z) :
  validate_optional validate_int (PInt n) = Some (Some n).
Proof. simpl. by rewrite validate_int_exact. Qed.

Lemma optional_bool_exact (b : bool) :
  validate_optional validate_bool (PBool b) = Some (Some b).
Proof. simpl. by rewrite validate_bool_exact. Qed.

Lemma optional_list_str_exact (l : list string) :
  validate_optional validate_list_str (PList (PStr <$> l)) = Some (Some l).
Proof.
  unfold validate_optional. by rewrite validate_list_str_exact.
Qed.

Lemma validate_list_str_nil : validate_list_str (PList []) = Some [].
Proof. apply (validate_list_str_exact []). Qed.

(** C7: when a record has neither casing of a field's key, the argument
    passed for the field is the field's default and passes validation, so
    the absence raises nothing: [name] is "Unknown" without [Name] and
    [name], [dataClasses] is the empty list without [DataClasses] and
    [dataClasses], the six other fields are [None] without their keys, and
    a record with none of the sixteen keys normalizes to the defaults. *)
Theorem absent_keys_take_defaults (d : gmap string pyval) :
  (d !! "Name" = None → d !! "name" = None →
     name_arg d = PStr "Unknown"
     ∧ validate_str (name_arg d) = Some "Unknown"
     ∧ ∀ b, normalize (PDict d) = Return b → name b = "Unknown")
  ∧ (d !! "DataClasses" = None → d !! "dataClasses" = None →
     dataClasses_arg d = PList []
     ∧ validate_optional validate_list_str (dataClasses_arg d)
         = Some (Some [])
     ∧ ∀ b, normalize (PDict d) = Return b → dataClasses b = Some [])
  ∧ (d !! "Domain" = None → d !! "domain" = None →
     domain_arg d = PNone
     ∧ ∀ b, normalize (PDict d) = Return b → domain b = None)
  ∧ (d !! "BreachDate" = None → d !! "breachDate" = None →
     breachDate_arg d = PNone
     ∧ ∀ b, normalize (PDict d) = Return b → breachDate b = None)
  ∧ (d !! "AddedDate" = None → d !! "addedDate" = None →
     addedDate_arg d = PNone
     ∧ ∀ b, normalize (PDict d) = Return b → addedDate b = None)
  ∧ (d !! "PwnCount" = None → d !! "pwnCount" = None →
     pwnCount_arg d = PNone
     ∧ ∀ b, normalize (PDict d) = Return b → pwnCount b = None)
  ∧ (d !! "Description" = None → d !! "description" = None →
     description_arg d = PNone
     ∧ ∀ b, normalize (PDict d) = Return b → description b = None)
  ∧ (d !! "IsVerified" = None → d !! "isVerified" = None →
     isVerified_arg d = PNone
     ∧ ∀ b, normalize (PDict d) = Return b → isVerified b = None)
  ∧ (Forall (λ k, d !! k = None) breach_keys →
     normalize (PDict d)
       = Return (mkBreach "Unknown" None None None None None (Some []) None)).
Proof.
  split_and!.
  - intros Hu Hl.
    assert (name_arg d = PStr "Unknown") as Harg.
    { unfold name_arg. by rewrite (dict_get_None _ _ Hu), (dict_get_None _ _ Hl). }
    rewrite Harg, validate_str_exact. split_and!; [done..|].
    intros b (Hb & _)%normalize_Return.
    rewrite Harg, validate_str_exact in Hb. congruence.
  - intros Hu Hl.
    assert (dataClasses_arg d = PList []) as Harg.
    { unfold dataClasses_arg.
      by rewrite (dict_get_None _ _ Hu), (dict_get_None _ _ Hl). }
    rewrite Harg. simpl. rewrite validate_list_str_nil.
    split_and!; [done..|].
    intros b (_&_&_&_&_&_& Hb &_)%normalize_Return.
    rewrite Harg in Hb. simpl in Hb. rewrite validate_list_str_nil in Hb.
    simpl in Hb. congruence.
  - intros Hu Hl.
    assert (domain_arg d = PNone) as Harg.
    { unfold domain_arg.
      by rewrite (dict_get_None _ _ Hu), (dict_get_None _ _ Hl). }
    split; [done|]. intros b (_& Hb &_)%normalize_Return.
    rewrite Harg in Hb. simpl in Hb. congruence.
  - intros Hu Hl.
    assert (breachDate_arg d = PNone) as Harg.
    { unfold breachDate_arg.
      by rewrite (dict_get_None _ _ Hu), (dict_get_None _ _ Hl). }
    split; [done|]. intros b (_&_& Hb &_)%normalize_Return.
    rewrite Harg in Hb. simpl in Hb. congruence.
  - intros Hu Hl.
    assert (addedDate_arg d = PNone) as Harg.
    { unfold addedDate_arg.
      by rewrite (dict_get_None _ _ Hu), (dict_get_None _ _ Hl). }
    split; [done|]. intros b (_&_&_& Hb &_)%normalize_Return.
    rewrite Harg in Hb. simpl in Hb. congruence.
  - intros Hu Hl.
    assert (pwnCount_arg d = PNone) as Harg.
    { unfold pwnCount_arg.
      by rewrite (dict_get_None _ _ Hu), (dict_get_None _ _ Hl). }
    split; [done|]. intros b (_&_&_&_& Hb &_)%normalize_Return.
    rewrite Harg in Hb. simpl in Hb. congruence.
  - intros Hu Hl.
    assert (description_arg d = PNone) as Harg.
    { unfold description_arg.
      by rewrite (dict_get_None _ _ Hu), (dict_get_None _ _ Hl). }
    split; [done|]. intros b (_&_&_&_&_& Hb &_)%normalize_Return.
    rewrite Harg in Hb. simpl in Hb. congruence.
  - intros Hu Hl.
    assert (isVerified_arg d = PNone) as Harg.
    { unfold isVerified_arg.
      by rewrite (dict_get_None _ _ Hu), (dict_get_None _ _ Hl). }
    split; [done|]. intros b (_&_&_&_&_&_&_& Hb)%normalize_Return.
    rewrite Harg in Hb. simpl in Hb. congruence.
  - intros Hnone. unfold breach_keys in Hnone.
    repeat (apply Forall_cons in Hnone as [? Hnone]).
    apply normalize_Return; simpl.
    unfold name_arg, domain_arg, breachDate_arg, addedDate_arg, pwnCount_arg,
      description_arg, dataClasses_arg, isVerified_arg.
    rewrite !dict_get_None by done. simpl.
    change (py_or (py_or PNone PNone) ?v) with v.
    by rewrite validate_str_exact, validate_list_str_nil.
Qed.

(** C8, as the code has it: [pwnCount] is [PwnCount]'s value when that is
    truthy and otherwise whatever [pwnCount] holds.  A 0 under [PwnCount]
    falls through to [pwnCount]'s value, [None] when it is absent; a 0 under
    [pwnCount] is kept whenever [PwnCount] is absent or falsy, and gives way
    only to a truthy [PwnCount]. *)
Theorem pwnCount_resolved_by_truthiness (d : gmap string pyval) :
  pwnCount_arg d
    = (if truthy (dict_get d "PwnCount") then dict_get d "PwnCount"
       else dict_get d "pwnCount")
  ∧ (d !! "PwnCount" = Some (PInt 0) →
     pwnCount_arg d = dict_get d "pwnCount"
     ∧ ∀ b, normalize (PDict d) = Return b →
         (d !! "pwnCount" = None → pwnCount b = None)
         ∧ (∀ n, d !! "pwnCount" = Some (PInt n) → pwnCount b = Some n))
  ∧ (d !! "pwnCount" = Some (PInt 0) →
     truthy (dict_get d "PwnCount") = false →
     pwnCount_arg d = PInt 0
     ∧ ∀ b, normalize (PDict d) = Return b → pwnCount b = Some 0)
  ∧ (d !! "pwnCount" = Some (PInt 0) →
     truthy (dict_get d "PwnCount") = true →
     pwnCount_arg d = dict_get d "PwnCount").
Proof.
  split_and!; [done|..].
  - intros Hu.
    assert (pwnCount_arg d = dict_get d "pwnCount") as Harg.
    { unfold pwnCount_arg. by rewrite (dict_get_Some _ _ _ Hu). }
    split; [done|]. intros b (_&_&_&_& Hb &_)%normalize_Return.
    rewrite Harg in Hb. split.
    + intros Hl. rewrite (dict_get_None _ _ Hl) in Hb. simpl in Hb.
      congruence.
    + intros n Hl. rewrite (dict_get_Some _ _ _ Hl) in Hb. simpl in Hb.
      rewrite validate_int_exact in Hb. simpl in Hb. congruence.
  - intros Hl Hu.
    assert (pwnCount_arg d = PInt 0) as Harg.
    { unfold pwnCount_arg. by rewrite py_or_falsy, (dict_get_Some _ _ _ Hl). }
    split; [done|]. intros b (_&_&_&_& Hb &_)%normalize_Return.
    rewrite Harg in Hb. simpl in Hb. rewrite validate_int_exact in Hb.
    simpl in Hb. congruence.
  - intros _ Hu. unfold pwnCount_arg. by rewrite py_or_truthy.
Qed.

(** C10: [isVerified] is resolved by presence.  With [IsVerified] false the
    argument is false whatever [isVerified] holds, and every [Breach] built
    from the record has [isVerified == false].  In general the argument is
    the value of [IsVerified] whenever that key is present with a value
    other than [None], truthy or not, and the value of [isVerified] when
    [IsVerified] is absent or [None].  The seven other arguments test
    truthiness instead: a falsy value under the upper-camel key gives way
    to the lower-camel key. *)
Theorem isVerified_resolved_by_presence (d : gmap string pyval) :
  (d !! "IsVerified" = Some (PBool false) →
     isVerified_arg d = PBool false
     ∧ (∀ b, normalize (PDict d) = Return b → isVerified b = Some false)
     ∧ (∀ w, isVerified_arg (<["isVerified" := w]> d) = PBool false)
     ∧ isVerified_arg (delete "isVerified" d) = PBool false)
  ∧ (∀ v, d !! "IsVerified" = Some v → v ≠ PNone →
       isVerified_arg d = v
       ∧ ∀ x b, v = PBool x → normalize (PDict d) = Return b →
           isVerified b = Some x)
  ∧ (d !! "IsVerified" = None ∨ d !! "IsVerified" = Some PNone →
       isVerified_arg d = dict_get d "isVerified"
       ∧ (∀ x b, d !! "isVerified" = Some (PBool x) →
            normalize (PDict d) = Return b → isVerified b = Some x)
       ∧ (d !! "isVerified" = None →
            ∀ b, normalize (PDict d) = Return b → isVerified b = None))
  ∧ ∀ d' v, truthy v = false →
      (d' !! "Name" = Some v →
         name_arg d' = py_or (dict_get d' "name") (PStr "Unknown"))
      ∧ (d' !! "Domain" = Some v → domain_arg d' = dict_get d' "domain")
      ∧ (d' !! "BreachDate" = Some v →
         breachDate_arg d' = dict_get d' "breachDate")
      ∧ (d' !! "AddedDate" = Some v →
         addedDate_arg d' = dict_get d' "addedDate")
      ∧ (d' !! "PwnCount" = Some v → pwnCount_arg d' = dict_get d' "pwnCount")
      ∧ (d' !! "Description" = Some v →
         description_arg d' = dict_get d' "description")
      ∧ (d' !! "DataClasses" = Some v →
         dataClasses_arg d' = py_or (dict_get d' "dataClasses") (PList [])).
Proof.
  assert (∀ v, d !! "IsVerified" = Some v → v ≠ PNone → isVerified_arg d = v)
    as Hpresent.
  { intros v Hu Hv. unfold isVerified_arg. rewrite (dict_get_Some _ _ _ Hu).
    by destruct v. }
  assert (∀ x b, isVerified_arg d = PBool x →
            normalize (PDict d) = Return b → isVerified b = Some x) as Hbool.
  { intros x b Harg (_&_&_&_&_&_&_& Hb)%normalize_Return.
    rewrite Harg, optional_bool_exact in Hb. congruence. }
  split_and!.
  - intros Hu.
    assert (isVerified_arg d = PBool false) as Harg
      by by apply Hpresent.
    split_and!; [done|intros b; by apply Hbool| |].
    + intros w. unfold isVerified_arg, dict_get.
      rewrite lookup_insert_ne by done. by rewrite Hu.
    + unfold isVerified_arg, dict_get.
      rewrite lookup_delete_ne by done. by rewrite Hu.
  - intros v Hu Hv. split; [by apply Hpresent|].
    intros x b -> Hb. apply (Hbool x b); [|done]. by apply Hpresent.
  - intros Habsent.
    assert (isVerified_arg d = dict_get d "isVerified") as Harg.
    { unfold isVerified_arg.
      by destruct Habsent as [Hu|Hu];
        [rewrite (dict_get_None _ _ Hu)|rewrite (dict_get_Some _ _ _ Hu)]. }
    split_and!; [done| |].
    + intros x b Hl. apply (Hbool x b).
      by rewrite Harg, (dict_get_Some _ _ _ Hl).
    + intros Hl b (_&_&_&_&_&_&_& Hb)%normalize_Return.
      rewrite Harg, (dict_get_None _ _ Hl) in Hb. simpl in Hb. congruence.
  - intros d' v Hv.
    split_and!; intros Hd;
      unfold name_arg, domain_arg, breachDate_arg, addedDate_arg,
        pwnCount_arg, description_arg, dataClasses_arg;
      rewrite (dict_get_Some _ _ _ Hd); by rewrite (py_or_falsy v).
Qed.
End Normalizer_properties.

(** ** Casing *)

(** Membership in a list that is written out. *)
Ltac in_list :=
  repeat first [apply list_elem_of_here | apply list_elem_of_further].

Lemma key_inj (c c' : casing) (f f' : field) :
  key c f = key c' f' → c = c' ∧ f = f'.
Proof. destruct c, f, c', f'; simpl; intros Heq; by simplify_eq. Qed.

Section Spelled.
Variable c : field → casing.
Variable vals : field → option pyval.
Variable extra : gmap string pyval.
Hypothesis extra_unread : ∀ c' f, extra !! key c' f = None.

Lemma spelled_lookup_on (l : list field) (c' : casing) (f : field) :
  f ∈ l →
  foldr (λ f m, match vals f with
                | Some v => <[ key (c f) f := v ]> m
                | None => m
                end) extra l !! key c' f
    = if decide (c f = c') then vals f else None.
Proof.
  assert (∀ l,
    f ∉ l →
    foldr (λ f m, match vals f with
                  | Some v => <[ key (c f) f := v ]> m
                  | None => m
                  end) extra l !! key c' f = None) as Hout.
  { clear l. induction l as [|g l IH]; simpl; intros Hf; [done|].
    apply not_elem_of_cons in Hf as [Hne Hf].
    destruct (vals g) as [v|]; [|by apply IH].
    rewrite lookup_insert_ne; [by apply IH|].
    intros [_ ->]%key_inj. done. }
  induction l as [|g l IH]; simpl; intros Hf; [by apply elem_of_nil in Hf|].
  destruct (decide (f = g)) as [->|Hne].
  - destruct (vals g) as [v|] eqn:Hg.
    + destruct (decide (c g = c')) as [->|Hc].
      * by rewrite lookup_insert_eq.
      * rewrite lookup_insert_ne; [|by intros [? _]%key_inj].
        destruct (decide (g ∈ l)) as [Hin|Hnin].
        -- rewrite (IH Hin). by destruct (decide (c g = c')).
        -- by apply Hout.
    + destruct (decide (g ∈ l)) as [Hin|Hnin].
      * by rewrite (IH Hin).
      * rewrite (Hout _ Hnin). by destruct (decide (c g = c')).
  - apply elem_of_cons in Hf as [?|Hin]; [done|].
    destruct (vals g) as [v|]; [|by apply IH].
    rewrite lookup_insert_ne; [by apply IH|].
    intros [_ ->]%key_inj. done.
Qed.

Lemma spelled_lookup (c' : casing) (f : field) :
  spelled c vals extra !! key c' f = if decide (c f = c') then vals f else None.
Proof.
  apply spelled_lookup_on. unfold fields. destruct f; in_list.
Qed.

Lemma spelled_get (c' : casing) (f : field) :
  dict_get (spelled c vals extra) (key c' f)
    = if decide (c f = c') then default PNone (vals f) else PNone.
Proof.
  unfold dict_get. rewrite spelled_lookup. by destruct (decide (c f = c')).
Qed.
End Spelled.

Lemma py_or_None_r (v w : pyval) : py_or (py_or v PNone) w = py_or v w.
Proof. unfold py_or. by destruct (truthy v) eqn:Hv; [rewrite Hv|]. Qed.

Section Casing_insensitive.
Context {P : Pydantic}.
Variable vals : field → option pyval.
Variable extra : gmap string pyval.
Hypothesis extra_unread : ∀ c f, extra !! key c f = None.
Hypothesis truthy_or_None :
  ∀ f v, f ∈ or_fields → vals f = Some v → truthy v = true ∨ v = PNone.

Lemma or_arg_spelled (c : field → casing) (f : field) :
  f ∈ or_fields →
  py_or (dict_get (spelled c vals extra) (key UpperCamel f))
        (dict_get (spelled c vals extra) (key LowerCamel f))
    = default PNone (vals f).
Proof.
  intros Hf. rewrite !spelled_get by done.
  destruct (c f); simpl; [|done].
  destruct (vals f) as [v|] eqn:Hv; simpl; [|done].
  destruct (truthy_or_None f v Hf Hv) as [Ht| ->]; [|done].
  by apply py_or_truthy.
Qed.

Lemma name_arg_spelled (c : field → casing) :
  name_arg (spelled c vals extra)
    = py_or (default PNone (vals F_name)) (PStr "Unknown").
Proof.
  unfold name_arg.
  change "Name" with (key UpperCamel F_name).
  change "name" with (key LowerCamel F_name).
  rewrite !spelled_get by done.
  destruct (c F_name); simpl; [apply py_or_None_r|done].
Qed.

Lemma dataClasses_arg_spelled (c : field → casing) :
  dataClasses_arg (spelled c vals extra)
    = py_or (default PNone (vals F_dataClasses)) (PList []).
Proof.
  unfold dataClasses_arg.
  change "DataClasses" with (key UpperCamel F_dataClasses).
  change "dataClasses" with (key LowerCamel F_dataClasses).
  rewrite !spelled_get by done.
  destruct (c F_dataClasses); simpl; [apply py_or_None_r|done].
Qed.

Lemma isVerified_arg_spelled (c : field → casing) :
  isVerified_arg (spelled c vals extra) = default PNone (vals F_isVerified).
Proof.
  unfold isVerified_arg.
  change "IsVerified" with (key UpperCamel F_isVerified).
  change "isVerified" with (key LowerCamel F_isVerified).
  rewrite !spelled_get by done.
  destruct (c F_isVerified); simpl; [|done].
  by destruct (default PNone (vals F_isVerified)).
Qed.

(** C1, for the values the [or] chains let through: records that carry the
    same value for each field, spelled in any two mixes of the casings, give
    the same outcome of the normalizer, provided the values of [domain],
    [breachDate], [addedDate], [pwnCount] and [description] are truthy or
    [None]. *)
Theorem normalize_casing_insensitive (c1 c2 : field → casing) :
  normalize (PDict (spelled c1 vals extra))
    = normalize (PDict (spelled c2 vals extra)).
Proof.
  unfold normalize.
  rewrite !name_arg_spelled, !dataClasses_arg_spelled, !isVerified_arg_spelled.
  unfold domain_arg, breachDate_arg, addedDate_arg, pwnCount_arg,
    description_arg.
  rewrite !(or_arg_spelled _ F_domain), !(or_arg_spelled _ F_breachDate),
    !(or_arg_spelled _ F_addedDate), !(or_arg_spelled _ F_pwnCount),
    !(or_arg_spelled _ F_description) by (unfold or_fields; in_list).
  done.
Qed.
End Casing_insensitive.

(** ** Demo mode *)

Lemma py_split_nonempty (sep : ascii) (s : string) : py_split sep s ≠ [].
Proof.
  destruct s as [|c s]; simpl; [done|].
  destruct (Ascii.eqb c sep); [done|]. by destruct (py_split sep s).
Qed.

Lemma py_split_cons (sep c : ascii) (s : string) :
  c ≠ sep →
  ∃ h t, py_split sep s = h :: t ∧ py_split sep (String c s) = String c h :: t.
Proof.
  intros Hne. pose proof (py_split_nonempty sep s) as Hs. simpl.
  destruct (Ascii.eqb_spec c sep) as [?|_]; [done|].
  destruct (py_split sep s) as [|h t]; [done|]. by exists h, t.
Qed.

(** No piece of [s.split(sep)] holds a [sep]. *)
Lemma py_split_no_sep (sep : ascii) (s : string) :
  Forall (λ piece, ¬ In sep (list_ascii_of_string piece)) (py_split sep s).
Proof.
  induction s as [|c s IH]; simpl.
  - constructor; [tauto|constructor].
  - destruct (Ascii.eqb_spec c sep) as [->|Hne].
    + constructor; [simpl; tauto|done].
    + destruct (py_split sep s) as [|h t].
      * constructor; [|constructor]. simpl. intros [?|?]; [done|tauto].
      * apply Forall_cons in IH as [Hh Ht]. constructor; [|done].
        simpl. intros [?|?]; [done|tauto].
Qed.

(** [sep.join(s.split(sep))] is [s]. *)
Lemma py_join_split (sep : ascii) (s : string) :
  py_join sep (py_split sep s) = s.
Proof.
  induction s as [|c s IH]; simpl; [done|].
  destruct (Ascii.eqb_spec c sep) as [->|Hne].
  - pose proof (py_split_nonempty sep s) as Hs.
    destruct (py_split sep s) as [|h t]; [done|]. simpl in *. by rewrite IH.
  - destruct (py_split sep s) as [|h t]; simpl in *; [by rewrite <-IH|].
    destruct t; simpl in *; by rewrite <-IH.
Qed.

Lemma append_String_assoc (x pre rest : string) (sep : ascii) :
  x +:+ String sep (pre +:+ rest) = (x +:+ String sep pre) +:+ rest.
Proof.
  induction x as [|a x IH]; [done|].
  change (String a (x +:+ String sep (pre +:+ rest))
          = String a ((x +:+ String sep pre) +:+ rest)).
  by rewrite IH.
Qed.

Lemma py_join_last (sep : ascii) (l : list string) :
  l ≠ [] →
  py_join sep l = py_last l
  ∨ ∃ pre, py_join sep l = pre +:+ String sep (py_last l).
Proof.
  induction l as [|x l IH]; [done|]. intros _.
  destruct l as [|y l]; [by left|]. right.
  change (py_join sep (x :: y :: l))
    with (x +:+ String sep (py_join sep (y :: l))).
  change (py_last (x :: y :: l)) with (py_last (y :: l)).
  destruct IH as [Heq|[pre Heq]]; [done|..]; rewrite Heq.
  - by exists x.
  - exists (x +:+ String sep pre). apply append_String_assoc.
Qed.

(** [s.split(sep)[-1]] is the part of [s] after its last [sep], all of [s]
    when [sep] does not occur in it. *)
Lemma py_last_split_spec (sep : ascii) (s : string) :
  let d := py_last (py_split sep s) in
  ¬ In sep (list_ascii_of_string d)
  ∧ (s = d ∨ ∃ pre, s = pre +:+ String sep d).
Proof.
  simpl. split.
  - pose proof (py_split_no_sep sep s) as Hall.
    pose proof (py_split_nonempty sep s) as Hne.
    unfold py_last. induction (py_split sep s) as [|h t IH]; [done|].
    apply Forall_cons in Hall as [Hh Ht].
    destruct t as [|h' t']; [done|]. by apply IH.
  - pose proof (py_join_last sep _ (py_split_nonempty sep s)) as Hlast.
    by rewrite py_join_split in Hlast.
Qed.

Section Demo_mode.
Context {P : Pydantic} {E : PydanticExact P}.
Variable getenv : string → option string.
Variable requests_get : Request → except Response.
Variable DB : Type.
Variable create_document : string → Check → M DB ().
Variable utcnow : Z.

(** The demo record passes validation as it stands. *)
Lemma normalize_demo_record (domain : string) :
  domain ≠ EmptyString →
  normalize (demo_record domain) = Return (demo_breach domain).
Proof.
  intros Hne. unfold demo_record. apply normalize_Return.
  set (d := list_to_map _).
  assert (name_arg d = PStr "ExampleBreach") as -> by by vm_compute.
  assert (domain_arg d = PStr domain) as ->.
  { assert (dict_get d "Domain" = PStr domain) as Hd by by vm_compute.
    unfold domain_arg. rewrite Hd. apply py_or_truthy. simpl.
    apply negb_true_iff. by apply String.eqb_neq. }
  assert (breachDate_arg d = PStr "2023-09-10") as -> by by vm_compute.
  assert (addedDate_arg d = PStr "2023-10-01") as -> by by vm_compute.
  assert (pwnCount_arg d = PInt 12345) as -> by by vm_compute.
  assert (description_arg d = PStr "Sample demo breach to showcase UI.")
    as -> by by vm_compute.
  assert (dataClasses_arg d
          = PList (PStr <$> ["Email addresses"; "Passwords"]))
    as -> by by vm_compute.
  assert (isVerified_arg d = PBool true) as -> by by vm_compute.
  by rewrite validate_str_exact, !optional_str_exact, optional_int_exact,
    optional_list_str_exact, optional_bool_exact.
Qed.

(** C5: without a key, the handler answers "user@example.com" with the one
    demo breach, named "ExampleBreach", [found = true], [count = 1],
    [source = "demo"] and [is_demo = true]; and it answers an email whose
    lowercased part after the last '@' is neither "example.com" nor
    "test.com" with no breaches, [found = false], [count = 0] and
    [source = "demo"].  The addresses are such as the library has written,
    which it writes again as they are. *)
Theorem demo_mode_responses (db : DB) :
  str_truthy (getenv "HIBP_API_KEY") = false →
  validate_email "user@example.com" = Some "user@example.com" →
  (check_email_breaches getenv requests_get DB create_document utcnow
     (EmailCheckRequest.mk "user@example.com") db).1
    = Return (EmailCheckResponse.mk "user@example.com" true 1
                [demo_breach "example.com"] "demo" true)
  ∧ name (demo_breach "example.com") = "ExampleBreach"
  ∧ ∀ email,
      validate_email email = Some email →
      py_lower (py_last (py_split "@" email)) ≠ "example.com" →
      py_lower (py_last (py_split "@" email)) ≠ "test.com" →
      (check_email_breaches getenv requests_get DB create_document utcnow
         (EmailCheckRequest.mk email) db).1
        = Return (EmailCheckResponse.mk email false 0 [] "demo" true).
Proof.
  intros Hkey Hexample. split_and!; [|done|].
  - rewrite (check_email_breaches_accepted _ _ _ _ _ _ _ _ Hexample).
    rewrite lookup_without_key by done.
    rewrite except_bind_Return.
    assert (demo_breaches_raw "user@example.com"
            = PList [demo_record "example.com"]) as -> by by vm_compute.
    unfold normalize_all. simpl py_iter. rewrite except_bind_Return.
    rewrite mapM_except_cons, normalize_demo_record by done.
    simpl. unfold make_check. simpl. by rewrite Hkey.
  - intros email Hvalid Hex Htest.
    rewrite (check_email_breaches_accepted _ _ _ _ _ _ _ _ Hvalid).
    rewrite lookup_without_key by done.
    rewrite except_bind_Return.
    assert (demo_breaches_raw email = PList []) as ->.
    { unfold demo_breaches_raw. rewrite bool_decide_eq_false_2; [done|].
      by intros [?%elem_of_singleton|?%elem_of_singleton]%elem_of_union. }
    simpl. unfold make_check. simpl. by rewrite Hkey.
Qed.
End Demo_mode.

(** ** The claims on concrete runs *)

(** C1 fails for a falsy value: a [pwnCount] of 0 and an empty [domain] are
    dropped when they are spelled [PwnCount] and [Domain], and kept when
    they are spelled [pwnCount] and [domain]. *)
Lemma casing_changes_zero_pwnCount :
  let vals := λ f, match f with
                   | F_name => Some (PStr "Adobe")
                   | F_domain => Some (PStr EmptyString)
                   | F_pwnCount => Some (PInt 0)
                   | _ => None
                   end in
  let upper := spelled (λ _, UpperCamel) vals ∅ in
  let lower := spelled (λ _, LowerCamel) vals ∅ in
  upper = {[ "Name" := PStr "Adobe"; "Domain" := PStr EmptyString;
             "PwnCount" := PInt 0 ]}
  ∧ lower = {[ "name" := PStr "Adobe"; "domain" := PStr EmptyString;
               "pwnCount" := PInt 0 ]}
  ∧ normalize (P:=strict) (PDict upper)
      = Return (mkBreach "Adobe" None None None None None (Some []) None)
  ∧ normalize (P:=strict) (PDict lower)
      = Return (mkBreach "Adobe" (Some EmptyString) None None (Some 0) None
                  (Some []) None)
  ∧ normalize (P:=strict) (PDict upper) ≠ normalize (P:=strict) (PDict lower).
Proof.
  split_and!; [by vm_compute..|]. vm_compute. discriminate.
Qed.

(** A record of the upstream, spelled in upper and in lower camel case. *)
Lemma normalize_casing_insensitive_witness :
  let vals := λ f, match f with
                   | F_name => Some (PStr "Adobe")
                   | F_domain => Some (PStr "adobe.com")
                   | F_pwnCount => Some (PInt 152445165)
                   | F_dataClasses => Some (PList [])
                   | F_isVerified => Some (PBool false)
                   | _ => None
                   end in
  let extra : gmap string pyval := {[ "Title" := PStr "Adobe" ]} in
  normalize (P:=strict) (PDict (spelled (λ _, UpperCamel) vals extra))
    = normalize (P:=strict) (PDict (spelled (λ _, LowerCamel) vals extra)).
Proof.
  intros vals extra. apply (normalize_casing_insensitive (P:=strict)).
  - intros [] []; reflexivity.
  - intros f v Hf Hv. unfold or_fields in Hf.
    repeat (apply elem_of_cons in Hf as [->|Hf]);
      [..|by apply elem_of_nil in Hf]; injection Hv as <- || discriminate Hv;
      left; reflexivity.
Defined.

(** The invariants on the response of a run in demo mode. *)
Lemma response_invariants_witness :
  let handler :=
    check_email_breaches (P:=strict) no_key
      (upstream (Raise (Exception "no network"))) (list Check) db_store 0 in
  let resp :=
    EmailCheckResponse.mk "user@example.com" true 1
      [demo_breach "example.com"] "demo" true in
  handler (EmailCheckRequest.mk "user@example.com") []
    = (Return resp,
       [make_check no_key 0 "user@example.com" [demo_breach "example.com"]])
  ∧ EmailCheckResponse.count resp
      = Z.of_nat (length (EmailCheckResponse.breaches resp))
  ∧ EmailCheckResponse.found resp
      = bool_decide (0 < EmailCheckResponse.count resp)
  ∧ EmailCheckResponse.is_demo resp
      = bool_decide (EmailCheckResponse.source resp = "demo").
Proof.
  intros handler resp.
  assert (handler (EmailCheckRequest.mk "user@example.com") []
    = (Return resp,
       [make_check no_key 0 "user@example.com" [demo_breach "example.com"]]))
    as Hrun by (vm_compute; reflexivity).
  split; [exact Hrun|].
  exact (response_invariants (P:=strict) _ _ _ _ _ _ _ _ _ Hrun).
Defined.

(** A run against a database that is not available. *)
Lemma persistence_failure_swallowed_witness :
  let email := "user@example.com" in
  let bs := [demo_breach "example.com"] in
  let result := make_check no_key 0 email bs in
  @validate_email strict email = Some email
  ∧ (db_unavailable "check" result []).1
    = Raise (Exception "database not available")
  ∧ (check_email_breaches (P:=strict) no_key
       (upstream (Raise (Exception "no network"))) (list Check)
       db_unavailable 0 (EmailCheckRequest.mk email) []).1
    = Return (EmailCheckResponse.mk email true 1 bs "demo" true).
Proof.
  intros email bs result. split; [reflexivity|]. split; [reflexivity|].
  refine (proj1 (persistence_failure_swallowed (P:=strict) no_key
    (upstream (Raise (Exception "no network"))) 0 (list Check)
    db_unavailable email (demo_breaches_raw email) bs []
    (Exception "database not available") _ _ _ _)).
  - reflexivity.
  - vm_compute; reflexivity.
  - vm_compute; reflexivity.
  - reflexivity.
Defined.

(** A run against an upstream that answers 404. *)
Lemma upstream_404_is_no_breaches_witness :
  let resp := mkResponse 404 EmptyString (Raise (Exception "Expecting value")) in
  @validate_email strict "someone@corp.org" = Some "someone@corp.org"
  ∧ status_code resp = 404
  ∧ (check_email_breaches (P:=strict) (with_key "secret")
       (upstream (Return resp)) (list Check) db_store 0
       (EmailCheckRequest.mk "someone@corp.org") []).1
    = Return (EmailCheckResponse.mk "someone@corp.org" false 0 [] "hibp" false).
Proof.
  intros resp. split; [reflexivity|]. split; [reflexivity|].
  apply (upstream_404_is_no_breaches (P:=strict) (with_key "secret")
    (upstream (Return resp)) (list Check) db_store 0
    "someone@corp.org" "secret" resp []); try reflexivity.
  discriminate.
Defined.

(** C4 fails for a status that is neither 2xx, 404 nor from 400 to 599: a
    304 with an empty body fails the request with status 500, not 304, and
    a 302 whose body is a JSON list is answered as a success. *)
Lemma upstream_3xx_not_reported :
  let handler resp :=
    (check_email_breaches (P:=strict) (with_key "secret")
       (upstream (Return resp)) (list Check) db_store 0
       (EmailCheckRequest.mk "someone@corp.org") []).1 in
  let not_modified :=
    mkResponse 304 EmptyString (Raise (Exception "Expecting value")) in
  let moved := mkResponse 302 "[]" (Return (PList [])) in
  ¬ (200 ≤ status_code not_modified < 300)
  ∧ status_code not_modified ≠ 404
  ∧ handler not_modified = Raise (HTTPException 500 "Expecting value")
  ∧ handler not_modified
      ≠ Raise (HTTPException (status_code not_modified)
                 (py_prefix 200 (text not_modified)))
  ∧ ¬ (200 ≤ status_code moved < 300)
  ∧ status_code moved ≠ 404
  ∧ handler moved
      = Return (EmailCheckResponse.mk "someone@corp.org" false 0 [] "hibp"
                  false).
Proof.
  simpl. split_and!; try lia; try (by vm_compute).
Qed.

(** Runs against an upstream that answers 503, and one that times out. *)
Lemma upstream_failure_reported_witness :
  let handler outcome :=
    check_email_breaches (P:=strict) (with_key "secret") (upstream outcome)
      (list Check) db_store 0 (EmailCheckRequest.mk "someone@corp.org") [] in
  let unavailable :=
    mkResponse 503 "Service Unavailable" (Raise (Exception "Expecting value")) in
  (with_key "secret" "HIBP_API_KEY" = Some "secret"
   ∧ status_code unavailable ≠ 404
   ∧ 400 ≤ status_code unavailable < 600)
  ∧ handler (Return unavailable)
      = (Raise (HTTPException 503 "Service Unavailable"), [])
  ∧ handler (Raise (Exception "Read timed out."))
      = (Raise (HTTPException 500 "Read timed out."), []).
Proof.
  intros handler unavailable.
  assert (with_key "secret" "HIBP_API_KEY" = Some "secret") as Hkey
    by reflexivity.
  assert ("secret" ≠ EmptyString) as Hne by discriminate.
  assert (status_code unavailable ≠ 404) as H404 by discriminate.
  assert (400 ≤ status_code unavailable < 600) as Herr by (simpl; lia).
  split; [done|]. split.
  - exact (proj1 (proj1 (upstream_failure_reported (P:=strict)
      (with_key "secret") (upstream (Return unavailable)) (list Check)
      db_store 0 "someone@corp.org" "secret" [] Hkey Hne)
      unavailable eq_refl H404 Herr)).
  - exact (proj1 (proj1 (proj2 (upstream_failure_reported (P:=strict)
      (with_key "secret") (upstream (Raise (Exception "Read timed out.")))
      (list Check) db_store 0 "someone@corp.org" "secret" [] Hkey Hne))
      "Read timed out." eq_refl)).
Defined.

(** Runs in demo mode, for a known and for an unknown domain. *)
Lemma demo_mode_responses_witness :
  let handler :=
    check_email_breaches (P:=strict) no_key
      (upstream (Raise (Exception "no network"))) (list Check) db_store 0 in
  str_truthy (no_key "HIBP_API_KEY") = false
  ∧ @validate_email strict "user@example.com" = Some "user@example.com"
  ∧ @validate_email strict "user@unknown-domain.org"
      = Some "user@unknown-domain.org"
  ∧ (handler (EmailCheckRequest.mk "user@example.com") []).1
      = Return (EmailCheckResponse.mk "user@example.com" true 1
                  [demo_breach "example.com"] "demo" true)
  ∧ (handler (EmailCheckRequest.mk "user@unknown-domain.org") []).1
      = Return (EmailCheckResponse.mk "user@unknown-domain.org" false 0 []
                  "demo" true).
Proof.
  intros handler.
  pose proof (demo_mode_responses (P:=strict) no_key
    (upstream (Raise (Exception "no network"))) (list Check) db_store 0 []
    eq_refl eq_refl) as (Hexample & _ & Hother).
  split; [reflexivity|]. split; [reflexivity|]. split; [reflexivity|].
  split; [exact Hexample|].
  apply Hother; [reflexivity|vm_compute; discriminate..].
Defined.

(** The normalizer on a record with a domain only. *)
Lemma absent_keys_take_defaults_witness :
  let d : gmap string pyval := {[ "Domain" := PStr "adobe.com" ]} in
  (d !! "Name" = None ∧ d !! "name" = None)
  ∧ name_arg d = PStr "Unknown"
  ∧ (∀ b, normalize (P:=strict) (PDict d) = Return b → name b = "Unknown")
  ∧ normalize (P:=strict) (PDict d)
      = Return (mkBreach "Unknown" (Some "adobe.com") None None None None
                  (Some []) None).
Proof.
  intros d.
  pose proof (absent_keys_take_defaults (P:=strict) d) as (Hname & _).
  destruct (Hname eq_refl eq_refl) as (Harg & _ & Hb).
  split; [by split|]. split; [exact Harg|]. split; [exact Hb|].
  vm_compute; reflexivity.
Defined.

(** C8 fails for a 0 under the lower-camel key: with [PwnCount] absent it is
    kept, it does not become [None]. *)
Lemma lower_camel_zero_pwnCount_kept :
  let d : gmap string pyval := {[ "pwnCount" := PInt 0 ]} in
  d !! "pwnCount" = Some (PInt 0)
  ∧ d !! "PwnCount" = None
  ∧ normalize (P:=strict) (PDict d)
      = Return (mkBreach "Unknown" None None None (Some 0) None (Some []) None)
  ∧ pwnCount (mkBreach "Unknown" None None None (Some 0) None (Some []) None)
      ≠ None.
Proof.
  simpl. split_and!; try (by vm_compute).
Qed.

(** The [pwnCount] argument for a 0 under each of the two keys. *)
Lemma pwnCount_resolved_by_truthiness_witness :
  let upper_zero : gmap string pyval :=
    {[ "PwnCount" := PInt 0; "pwnCount" := PInt 7 ]} in
  let lower_zero : gmap string pyval :=
    {[ "PwnCount" := PStr EmptyString; "pwnCount" := PInt 0 ]} in
  (upper_zero !! "PwnCount" = Some (PInt 0)
   ∧ pwnCount_arg upper_zero = dict_get upper_zero "pwnCount")
  ∧ (lower_zero !! "pwnCount" = Some (PInt 0)
     ∧ truthy (dict_get lower_zero "PwnCount") = false
     ∧ pwnCount_arg lower_zero = PInt 0).
Proof.
  intros upper_zero lower_zero. split.
  - pose proof (pwnCount_resolved_by_truthiness (P:=strict) upper_zero)
      as (_ & Hupper & _).
    split; [reflexivity|]. exact (proj1 (Hupper eq_refl)).
  - pose proof (pwnCount_resolved_by_truthiness (P:=strict) lower_zero)
      as (_ & _ & Hlower & _).
    split; [reflexivity|]. split; [reflexivity|].
    exact (proj1 (Hlower eq_refl eq_refl)).
Defined.

(** The normalizer on a record whose two keys disagree, on one with the
    lower-camel key alone, and on one whose upper-camel key is [null]. *)
Lemma isVerified_resolved_by_presence_witness :
  let both : gmap string pyval :=
    {[ "IsVerified" := PBool false; "isVerified" := PBool true ]} in
  let lower : gmap string pyval := {[ "isVerified" := PBool true ]} in
  let null : gmap string pyval :=
    {[ "IsVerified" := PNone; "isVerified" := PBool false ]} in
  (both !! "IsVerified" = Some (PBool false)
   ∧ isVerified_arg both = PBool false
   ∧ (∀ b, normalize (P:=strict) (PDict both) = Return b →
        isVerified b = Some false)
   ∧ normalize (P:=strict) (PDict both)
       = Return (mkBreach "Unknown" None None None None None (Some [])
                   (Some false)))
  ∧ (lower !! "IsVerified" = None
     ∧ isVerified_arg lower = PBool true
     ∧ (∀ b, normalize (P:=strict) (PDict lower) = Return b →
          isVerified b = Some true)
     ∧ normalize (P:=strict) (PDict lower)
         = Return (mkBreach "Unknown" None None None None None (Some [])
                     (Some true)))
  ∧ (null !! "IsVerified" = Some PNone
     ∧ isVerified_arg null = PBool false
     ∧ ∀ b, normalize (P:=strict) (PDict null) = Return b →
         isVerified b = Some false).
Proof.
  intros both lower null.
  pose proof (isVerified_resolved_by_presence (P:=strict) both)
    as (Hboth & _).
  destruct (Hboth eq_refl) as (Harg1 & Hb1 & _).
  pose proof (isVerified_resolved_by_presence (P:=strict) lower)
    as (_ & _ & Hlower & _).
  destruct (Hlower (or_introl eq_refl)) as (Harg2 & Hb2 & _).
  pose proof (isVerified_resolved_by_presence (P:=strict) null)
    as (_ & _ & Hnull & _).
  destruct (Hnull (or_intror eq_refl)) as (Harg3 & Hb3 & _).
  split; [|split].
  - split; [reflexivity|]. split; [exact Harg1|]. split; [exact Hb1|].
    vm_compute; reflexivity.
  - split; [reflexivity|]. split; [exact Harg2|].
    split; [intros b; exact (Hb2 true b eq_refl)|]. vm_compute; reflexivity.
  - split; [reflexivity|]. split; [exact Harg3|].
    intros b; exact (Hb3 false b eq_refl).
Defined.

(** A run with two records from the upstream. *)
Lemma breaches_follow_upstream_order_witness :
  let adobe : gmap string pyval :=
    {[ "Name" := PStr "Adobe"; "Domain" := PStr "adobe.com" ]} in
  let linkedin : gmap string pyval := {[ "name" := PStr "LinkedIn" ]} in
  let body := PList [PDict adobe; PDict linkedin] in
  let breaches :=
    [mkBreach "Adobe" (Some "adobe.com") None None None None (Some []) None;
     mkBreach "LinkedIn" None None None None None (Some []) None] in
  let resp :=
    EmailCheckResponse.mk "someone@corp.org" true 2 breaches "hibp" false in
  let getenv := with_key "secret" in
  let requests_get := upstream (Return (mkResponse 200 "[..]" (Return body))) in
  check_email_breaches (P:=strict) getenv requests_get (list Check) db_store 0
    (EmailCheckRequest.mk "someone@corp.org") []
    = (Return resp, [make_check getenv 0 "someone@corp.org" breaches])
  ∧ ∃ raw items,
      lookup getenv requests_get "someone@corp.org" = Return raw
      ∧ py_iter raw = Return items
      ∧ length (EmailCheckResponse.breaches resp) = length items
      ∧ (∀ i r, items !! i = Some r →
           ∃ b, EmailCheckResponse.breaches resp !! i = Some b
                ∧ normalize (P:=strict) r = Return b).
Proof.
  intros adobe linkedin body breaches resp getenv requests_get.
  assert (check_email_breaches (P:=strict) getenv requests_get (list Check)
            db_store 0 (EmailCheckRequest.mk "someone@corp.org") []
          = (Return resp, [make_check getenv 0 "someone@corp.org" breaches]))
    as Hrun by (vm_compute; reflexivity).
  split; [exact Hrun|].
  destruct (breaches_follow_upstream_order (P:=strict) _ _ _ _ _ _ _ _ _ Hrun)
    as (raw & items & Hraw & Hitems & Hlen & Hnth & _).
  by exists raw, items.
Defined.

(** ** Failures of the handler *)

Section Failure_properties.
Context {P : Pydantic}.
Variable getenv : string → option string.
Variable requests_get : Request → except Response.
Variable DB : Type.
Variable create_document : string → Check → M DB ().
Variable utcnow : Z.

Abbreviation handler :=
  (check_email_breaches getenv requests_get DB create_document utcnow).

(** The normalizer raises nothing but plain exceptions. *)
Lemma normalize_not_http (b : pyval) (c : Z) (d : string) :
  normalize b ≠ Raise (HTTPException c d).
Proof.
  destruct b; simpl; try done.
  unfold Breach_init. by case_match.
Qed.

Lemma mapM_normalize_not_http (items : list pyval) (c : Z) (d : string) :
  mapM normalize items ≠ Raise (HTTPException c d).
Proof.
  induction items as [|b items IH]; [done|].
  rewrite mapM_except_cons.
  destruct (normalize b) as [x|e] eqn:Hb.
  - destruct (mapM normalize items) as [k|e]; [done|]. congruence.
  - intros [= ->]. by eapply normalize_not_http.
Qed.

Lemma normalize_all_not_http (raw : pyval) (c : Z) (d : string) :
  normalize_all raw ≠ Raise (HTTPException c d).
Proof.
  unfold normalize_all. destruct (py_iter raw) as [items|e] eqn:Hiter.
  - rewrite except_bind_Return. apply mapM_normalize_not_http.
  - rewrite except_bind_Raise. intros [= ->]. by destruct raw.
Qed.

(** X1: a request with an address the library has written, which it
    writes again as it is, fails only before the persistence step: when it
    fails it fails with an [HTTPException], and nothing has been handed to
    [create_document], the database is as it was. *)
Theorem failure_persists_nothing (payload : EmailCheckRequest.t) (db : DB)
    (e : exn) :
  validate_email (EmailCheckRequest.email payload)
    = Some (EmailCheckRequest.email payload) →
  (handler payload db).1 = Raise e →
  (∃ c d, e = HTTPException c d) ∧ (handler payload db).2 = db.
Proof.
  destruct payload as [email]. cbn [EmailCheckRequest.email]. intros Hvalid.
  rewrite (check_email_breaches_accepted _ _ _ _ _ _ _ _ Hvalid).
  destruct (lookup getenv requests_get email ≫= normalize_all)
    as [bs|[c d|msg]]; simpl; [done|..]; intros [= <-]; eauto.
Qed.

(** X16: the one failure after the persistence step.  Should the library
    refuse the address when the response is built, as it can only for a
    request that was built without it, the request fails with status 500
    and the first 200 characters of the library's message, after the
    [Check] has been handed to [create_document]. *)
Theorem refused_address_fails_after_persisting (email : string) (raw : pyval)
    (bs : list Breach) (db : DB) :
  validate_email email = None →
  lookup getenv requests_get email = Return raw →
  normalize_all raw = Return bs →
  handler (EmailCheckRequest.mk email) db
    = (Raise (HTTPException 500 (py_prefix 200 (email_error email))),
       (create_document "check" (make_check getenv utcnow email bs) db).2).
Proof.
  intros Hrefused Hraw Hbs.
  rewrite check_email_breaches_cases, Hraw, except_bind_Return, Hbs.
  unfold make_response. by rewrite Hrefused.
Qed.

(** X2: when [requests.get] and [resp.json()] raise no [HTTPException] of
    their own, a failed request carries either status 500 or the status of
    an upstream answer from 400 to 599 other than 404, with the first 200
    characters of that answer's body; its detail never has more than 200
    characters. *)
Theorem failure_status_and_detail (email : string) (db : DB) (c : Z)
    (d : string) :
  (∀ rq c' d', requests_get rq ≠ Raise (HTTPException c' d')) →
  (∀ rq resp c' d',
     requests_get rq = Return resp → json resp ≠ Raise (HTTPException c' d')) →
  (handler (EmailCheckRequest.mk email) db).1 = Raise (HTTPException c d) →
  (String.length d ≤ 200)%nat
  ∧ (c = 500
     ∨ ∃ key resp,
         getenv "HIBP_API_KEY" = Some key
         ∧ requests_get (hibp_request key email) = Return resp
         ∧ c = status_code resp
         ∧ 400 ≤ c < 600 ∧ c ≠ 404
         ∧ d = py_prefix 200 (text resp)).
Proof.
  intros Hget Hjson. rewrite check_email_breaches_cases.
  destruct (lookup getenv requests_get email) as [raw|e] eqn:Hraw.
  - rewrite except_bind_Return.
    destruct (normalize_all raw) as [bs|[c' d'|msg]] eqn:Hall; cbn [fst].
    + unfold make_response.
      destruct (validate_email email) as [email'|]; cbn [fst]; [done|].
      pose proof (py_prefix_length 200 (email_error email)) as Hlen.
      generalize dependent (py_prefix 200 (email_error email)).
      intros t Hlen [= <- <-]. by split; [|left].
    + by apply normalize_all_not_http in Hall.
    + pose proof (py_prefix_length 200 msg) as Hlen.
      generalize dependent (py_prefix 200 msg).
      intros t Hlen [= <- <-]. by split; [|left].
  - rewrite except_bind_Raise. destruct e as [c' d'|msg]; cbn [fst].
    + intros [= -> ->]. revert Hraw.
      destruct (str_truthy (getenv "HIBP_API_KEY")) eqn:Htruthy;
        [|by rewrite lookup_without_key].
      destruct (getenv "HIBP_API_KEY") as [key|] eqn:Hkey; [|done].
      assert (key ≠ EmptyString) as Hne by by intros ->.
      rewrite (lookup_with_key _ _ _ _ Hkey Hne).
      destruct (requests_get (hibp_request key email)) as [resp|e] eqn:Hrq.
      * destruct (status_code resp =? 404) eqn:H404; [done|].
        unfold ok.
        destruct ((400 <=? status_code resp) && (status_code resp <? 600))
          eqn:Herr; cbn [negb].
        -- pose proof (py_prefix_length 200 (text resp)) as Hlen.
           intros [= <- Hd]. split; [by rewrite <-Hd|]. right.
           exists key, resp. apply andb_true_iff in Herr as [? ?].
           apply Z.eqb_neq in H404. split_and!; try done; lia.
        -- intros Hj. by apply (Hjson _ _ _ _ Hrq) in Hj.
      * intros [= ->]. by apply Hget in Hrq.
    + pose proof (py_prefix_length 200 msg) as Hlen.
      generalize dependent (py_prefix 200 msg).
      intros t Hlen [= <- <-]. by split; [|left].
Qed.
End Failure_properties.

(** ** Demo mode, in general *)

(** X3: without a key the upstream is never asked: the outcome of the
    handler does not depend on what [requests.get] would answer, nor on
    whether [HIBP_API_KEY] is unset or set to the empty string. *)
Theorem demo_mode_ignores_upstream {P : Pydantic}
    (getenv getenv' : string → option string)
    (requests_get requests_get' : Request → except Response)
    (DB : Type) (create_document : string → Check → M DB ()) (utcnow : Z)
    (payload : EmailCheckRequest.t) (db : DB) :
  str_truthy (getenv "HIBP_API_KEY") = false →
  str_truthy (getenv' "HIBP_API_KEY") = false →
  check_email_breaches getenv requests_get DB create_document utcnow payload db
    = check_email_breaches getenv' requests_get' DB create_document utcnow
        payload db.
Proof.
  intros Hkey Hkey'. destruct payload as [email].
  rewrite !check_email_breaches_cases, !lookup_without_key by done.
  unfold make_check. by rewrite Hkey, Hkey'.
Qed.

Section Demo_mode_general.
Context {P : Pydantic} {E : PydanticExact P}.
Variable getenv : string → option string.
Variable requests_get : Request → except Response.
Variable DB : Type.
Variable create_document : string → Check → M DB ().
Variable utcnow : Z.

(** X4: without a key, every request with an address the library has
    written, which it writes again as it is, is answered: with the one demo
    breach, carrying the lowercased domain, when the lowercased part after
    the last '@' is "example.com" or "test.com", and with no breaches
    otherwise. *)
Theorem demo_mode_by_domain (email : string) (db : DB) :
  str_truthy (getenv "HIBP_API_KEY") = false →
  validate_email email = Some email →
  let domain := py_lower (py_last (py_split "@" email)) in
  (check_email_breaches getenv requests_get DB create_document utcnow
     (EmailCheckRequest.mk email) db).1
    = Return
        (if bool_decide (domain = "example.com" ∨ domain = "test.com")
         then EmailCheckResponse.mk email true 1 [demo_breach domain]
                "demo" true
         else EmailCheckResponse.mk email false 0 [] "demo" true).
Proof.
  intros Hkey Hvalid domain.
  rewrite (check_email_breaches_accepted _ _ _ _ _ _ _ _ Hvalid).
  rewrite lookup_without_key by done.
  rewrite except_bind_Return. unfold demo_breaches_raw. fold domain.
  destruct (decide (domain = "example.com" ∨ domain = "test.com"))
    as [Hin|Hout].
  - rewrite (bool_decide_eq_true_2 (domain ∈ _)), bool_decide_eq_true_2;
      [|done|].
    + unfold normalize_all. cbn [py_iter]. rewrite except_bind_Return.
      rewrite mapM_except_cons, normalize_demo_record.
      * cbn [mapM]. unfold make_check; cbn. by rewrite Hkey.
      * by destruct Hin as [-> | ->].
    + apply elem_of_union. rewrite !elem_of_singleton. done.
  - rewrite (bool_decide_eq_false_2 (domain ∈ _)), bool_decide_eq_false_2;
      [|done|].
    + cbn. unfold make_check; cbn. by rewrite Hkey.
    + intros [?%elem_of_singleton|?%elem_of_singleton]%elem_of_union; tauto.
Qed.
End Demo_mode_general.

(** The demo branch on an address with capitals before the '@', and on
    one under a subdomain of a demo domain. *)
Lemma demo_mode_by_domain_witness :
  let handler :=
    check_email_breaches (P:=strict) (with_key EmptyString)
      (upstream (Raise (Exception "no network"))) (list Check) db_store 0 in
  str_truthy (with_key EmptyString "HIBP_API_KEY") = false
  ∧ @validate_email strict "Admin@test.com" = Some "Admin@test.com"
  ∧ @validate_email strict "admin@mail.test.com" = Some "admin@mail.test.com"
  ∧ (handler (EmailCheckRequest.mk "Admin@test.com") []).1
      = Return (EmailCheckResponse.mk "Admin@test.com" true 1
                  [demo_breach "test.com"] "demo" true)
  ∧ (handler (EmailCheckRequest.mk "admin@mail.test.com") []).1
      = Return (EmailCheckResponse.mk "admin@mail.test.com" false 0
                  [] "demo" true).
Proof.
  intros handler.
  split; [reflexivity|]. split; [reflexivity|]. split; [reflexivity|]. split.
  - exact (demo_mode_by_domain (P:=strict) (with_key EmptyString)
      (upstream (Raise (Exception "no network"))) (list Check) db_store 0
      "Admin@test.com" [] eq_refl eq_refl).
  - exact (demo_mode_by_domain (P:=strict) (with_key EmptyString)
      (upstream (Raise (Exception "no network"))) (list Check) db_store 0
      "admin@mail.test.com" [] eq_refl eq_refl).
Defined.

(** The handler without a key and with an empty key, against two
    upstreams. *)
Lemma demo_mode_ignores_upstream_witness :
  str_truthy (no_key "HIBP_API_KEY") = false
  ∧ str_truthy (with_key EmptyString "HIBP_API_KEY") = false
  ∧ check_email_breaches (P:=strict) no_key
      (upstream (Raise (Exception "Read timed out."))) (list Check) db_store 0
      (EmailCheckRequest.mk "user@test.com") []
    = check_email_breaches (P:=strict) (with_key EmptyString)
        (upstream (Return (mkResponse 503 "Service Unavailable"
                             (Raise (Exception "Expecting value")))))
        (list Check) db_store 0 (EmailCheckRequest.mk "user@test.com") [].
Proof.
  split; [reflexivity|]. split; [reflexivity|].
  apply (demo_mode_ignores_upstream (P:=strict)); reflexivity.
Defined.

(** ** The domain of an address *)

Lemma py_split_without_sep (sep : ascii) (s : string) :
  ¬ In sep (list_ascii_of_string s) → py_split sep s = [s].
Proof.
  induction s as [|c s IH]; simpl; [done|]. intros Hnot.
  destruct (Ascii.eqb_spec c sep) as [->|Hne]; [tauto|].
  rewrite IH; [done|tauto].
Qed.

Lemma py_split_with_sep (sep : ascii) (pre d : string) :
  ∃ h h' t, py_split sep (pre +:+ String sep d) = h :: h' :: t
            ∧ List.last (h' :: t) EmptyString = py_last (py_split sep d).
Proof.
  induction pre as [|c pre (h & h' & t & Hsplit & Hlast)].
  - change (EmptyString +:+ String sep d) with (String sep d). simpl.
    rewrite Ascii.eqb_refl.
    pose proof (py_split_nonempty sep d) as Hne.
    destruct (py_split sep d) as [|h' t] eqn:Hd; [done|].
    by exists EmptyString, h', t.
  - change (String c pre +:+ String sep d)
      with (String c (pre +:+ String sep d)).
    simpl. rewrite Hsplit.
    destruct (Ascii.eqb c sep).
    + exists EmptyString, h, (h' :: t). split; [done|].
      by rewrite <-Hlast.
    + by exists (String c h), h', t.
Qed.

(** X5: the domain the demo branch looks at is what follows the last '@'
    of the address, and the whole address when it has no '@'. *)
Theorem py_last_split_after_last_sep (sep : ascii) (pre d : string) :
  ¬ In sep (list_ascii_of_string d) →
  py_last (py_split sep (pre +:+ String sep d)) = d
  ∧ py_last (py_split sep d) = d.
Proof.
  intros Hnot.
  assert (py_last (py_split sep d) = d) as Hd
    by by rewrite py_split_without_sep.
  split; [|done].
  destruct (py_split_with_sep sep pre d) as (h & h' & t & -> & Hlast).
  unfold py_last in *. by rewrite <-Hd, <-Hlast.
Qed.

(** An address with two '@'. *)
Lemma py_last_split_after_last_sep_witness :
  py_last (py_split "@" ("first@second" +:+ String "@" "Example.COM"))
    = "Example.COM"
  ∧ py_last (py_split "@" "Example.COM") = "Example.COM".
Proof.
  apply (py_last_split_after_last_sep "@" "first@second" "Example.COM").
  simpl. intros H. repeat destruct H as [H|H]; try discriminate H. exact H.
Defined.

(** ** Bodies that are not a list of records *)

Section Body_properties.
Context {P : Pydantic}.
Variable getenv : string → option string.
Variable requests_get : Request → except Response.
Variable DB : Type.
Variable create_document : string → Check → M DB ().
Variable utcnow : Z.

Abbreviation handler :=
  (check_email_breaches getenv requests_get DB create_document utcnow).

(** X6: with a key set, an answer whose status is neither 404 nor from 400
    to 599 and whose body is not JSON fails the request with status 500 and
    the first 200 characters of the parser's message; nothing is
    persisted. *)
Theorem unparsable_body_is_500 (email key msg : string) (resp : Response)
    (db : DB) :
  getenv "HIBP_API_KEY" = Some key →
  key ≠ EmptyString →
  requests_get (hibp_request key email) = Return resp →
  status_code resp ≠ 404 →
  ¬ 400 ≤ status_code resp < 600 →
  json resp = Raise (Exception msg) →
  handler (EmailCheckRequest.mk email) db
    = (Raise (HTTPException 500 (py_prefix 200 msg)), db).
Proof.
  intros Hkey Hne Hget H404 Hok Hjson.
  rewrite check_email_breaches_cases, (lookup_with_key _ _ _ _ Hkey Hne), Hget.
  apply Z.eqb_neq in H404 as ->. unfold ok.
  assert ((400 <=? status_code resp) && (status_code resp <? 600) = false)
    as -> by (apply andb_false_iff; lia).
  cbn [negb]. by rewrite Hjson.
Qed.

Lemma normalize_str (s : string) :
  normalize (PStr s) = Raise (Exception "'str' object has no attribute 'get'").
Proof. done. Qed.

(** X7: a body that is JSON but not a list.  An empty object and an empty
    string give no breaches, like the empty list; a non-empty object or
    string is iterated key by key or character by character and fails on
    the first one, a string, which has no [get]; [null], a boolean and a
    number are not iterable. *)
Theorem normalize_all_not_a_list :
  normalize_all (PList []) = Return []
  ∧ normalize_all (PDict ∅) = Return []
  ∧ normalize_all (PStr EmptyString) = Return []
  ∧ (∀ d, d ≠ ∅ →
       normalize_all (PDict d)
         = Raise (Exception "'str' object has no attribute 'get'"))
  ∧ (∀ s, s ≠ EmptyString →
       normalize_all (PStr s)
         = Raise (Exception "'str' object has no attribute 'get'"))
  ∧ normalize_all PNone
      = Raise (Exception "'NoneType' object is not iterable")
  ∧ (∀ b, normalize_all (PBool b)
            = Raise (Exception "'bool' object is not iterable"))
  ∧ (∀ n, normalize_all (PInt n)
            = Raise (Exception "'int' object is not iterable")).
Proof.
  split_and!; try done.
  - intros d Hd. unfold normalize_all. cbn [py_iter].
    rewrite except_bind_Return.
    destruct (map_to_list d) as [|[k v] l] eqn:Hl.
    + by apply map_to_list_empty_iff in Hl.
    + by rewrite fmap_cons, mapM_except_cons, normalize_str.
  - intros [|c s] Hs; [done|]. unfold normalize_all. cbn [py_iter].
    rewrite except_bind_Return.
    change (list_ascii_of_string (String c s))
      with (c :: list_ascii_of_string s).
    by rewrite fmap_cons, mapM_except_cons, normalize_str.
Qed.

Lemma mapM_normalize_first_failure (good : list pyval) (bs : list Breach)
    (bad : pyval) (rest : list pyval) (e : exn) :
  Forall2 (λ r b, normalize r = Return b) good bs →
  normalize bad = Raise e →
  mapM normalize (good ++ bad :: rest)%list = Raise e.
Proof.
  intros Hgood Hbad. induction Hgood as [|r b good bs Hr _ IH].
  - by rewrite app_nil_l, mapM_except_cons, Hbad.
  - rewrite <-app_comm_cons. by rewrite mapM_except_cons, Hr, IH.
Qed.

(** X8: no partial result.  When the records before one that fails all
    normalize, the loop stops at the failing one with the failure of that
    record, whatever follows it; the request fails with status 500 and
    the first 200 characters of its message, and nothing is persisted. *)
Theorem first_failing_record_fails_request (email msg : string)
    (good : list pyval) (bs : list Breach) (bad : pyval) (rest : list pyval)
    (db : DB) :
  lookup getenv requests_get email
    = Return (PList (good ++ bad :: rest)%list) →
  Forall2 (λ r b, normalize r = Return b) good bs →
  normalize bad = Raise (Exception msg) →
  normalize_all (PList (good ++ bad :: rest)%list) = Raise (Exception msg)
  ∧ handler (EmailCheckRequest.mk email) db
      = (Raise (HTTPException 500 (py_prefix 200 msg)), db).
Proof.
  intros Hraw Hgood Hbad.
  assert (normalize_all (PList (good ++ bad :: rest)%list)
          = Raise (Exception msg)) as Hall.
  { unfold normalize_all. cbn [py_iter]. rewrite except_bind_Return.
    by eapply mapM_normalize_first_failure. }
  split; [done|].
  by rewrite check_email_breaches_cases, Hraw, except_bind_Return, Hall.
Qed.
End Body_properties.

(** A request that fails on an upstream answering 503: the database keeps
    the document it held. *)
Lemma failure_persists_nothing_witness :
  let earlier := make_check no_key 0 "old@corp.org" [] in
  let run :=
    check_email_breaches (P:=strict) (with_key "secret")
      (upstream (Return (mkResponse 503 "Service Unavailable"
                           (Raise (Exception "Expecting value")))))
      (list Check) db_store 0 (EmailCheckRequest.mk "someone@corp.org")
      [earlier] in
  @validate_email strict "someone@corp.org" = Some "someone@corp.org"
  ∧ run.1 = Raise (HTTPException 503 "Service Unavailable")
  ∧ (∃ c d, HTTPException 503 "Service Unavailable" = HTTPException c d)
  ∧ run.2 = [earlier].
Proof.
  intros earlier run.
  assert (run.1 = Raise (HTTPException 503 "Service Unavailable")) as Hrun
    by (vm_compute; reflexivity).
  split; [reflexivity|]. split; [exact Hrun|].
  exact (failure_persists_nothing (P:=strict) _ _ _ _ _
           (EmailCheckRequest.mk "someone@corp.org") _ _ eq_refl Hrun).
Defined.

(** A request built with an address that has two '@': the response is
    refused after the document has been kept. *)
Lemma refused_address_fails_after_persisting_witness :
  let email := "first@second@test.com" in
  @validate_email strict email = None
  ∧ check_email_breaches (P:=strict) no_key
      (upstream (Raise (Exception "no network"))) (list Check) db_store 0
      (EmailCheckRequest.mk email) []
    = (Raise (HTTPException 500 "value is not a valid email address"),
       [make_check no_key 0 email [demo_breach "test.com"]]).
Proof.
  intros email. split; [reflexivity|].
  refine (refused_address_fails_after_persisting (P:=strict) no_key
    (upstream (Raise (Exception "no network"))) (list Check) db_store 0
    email (demo_breaches_raw email) [demo_breach "test.com"] []
    eq_refl _ _).
  - vm_compute; reflexivity.
  - vm_compute; reflexivity.
Defined.

(** The status and the detail of a request that fails on an upstream
    answering 503. *)
Lemma failure_status_and_detail_witness :
  let unavailable :=
    mkResponse 503 "Service Unavailable" (Raise (Exception "Expecting value")) in
  let getenv := with_key "secret" in
  let requests_get := upstream (Return unavailable) in
  (check_email_breaches (P:=strict) getenv requests_get (list Check) db_store
     0 (EmailCheckRequest.mk "someone@corp.org") []).1
    = Raise (HTTPException 503 "Service Unavailable")
  ∧ (String.length "Service Unavailable" ≤ 200)%nat
  ∧ (503 = 500
     ∨ ∃ key resp,
         getenv "HIBP_API_KEY" = Some key
         ∧ requests_get (hibp_request key "someone@corp.org") = Return resp
         ∧ 503 = status_code resp
         ∧ 400 ≤ 503 < 600 ∧ 503 ≠ 404
         ∧ "Service Unavailable" = py_prefix 200 (text resp)).
Proof.
  intros unavailable getenv requests_get.
  assert ((check_email_breaches (P:=strict) getenv requests_get (list Check)
             db_store 0 (EmailCheckRequest.mk "someone@corp.org") []).1
          = Raise (HTTPException 503 "Service Unavailable")) as Hrun
    by (vm_compute; reflexivity).
  split; [exact Hrun|].
  refine (failure_status_and_detail (P:=strict) getenv requests_get
    (list Check) db_store 0 "someone@corp.org" [] 503 "Service Unavailable"
    _ _ Hrun).
  - intros rq c' d'. discriminate.
  - intros rq resp c' d' [= <-]. discriminate.
Defined.

(** An upstream that answers 200 with a page of HTML. *)
Lemma unparsable_body_is_500_witness :
  let page :=
    mkResponse 200 "<html>" (Raise (Exception "Expecting value")) in
  (status_code page ≠ 404 ∧ ¬ 400 ≤ status_code page < 600)
  ∧ check_email_breaches (P:=strict) (with_key "secret")
      (upstream (Return page)) (list Check) db_store 0
      (EmailCheckRequest.mk "someone@corp.org") []
    = (Raise (HTTPException 500 "Expecting value"), []).
Proof.
  intros page.
  assert (status_code page ≠ 404) as H404 by discriminate.
  assert (¬ 400 ≤ status_code page < 600) as Hok by (simpl; lia).
  split; [done|].
  refine (unparsable_body_is_500 (P:=strict) (with_key "secret")
    (upstream (Return page)) (list Check) db_store 0 "someone@corp.org"
    "secret" "Expecting value" page [] eq_refl _ eq_refl H404 Hok eq_refl).
  discriminate.
Defined.

(** A list whose second element is a string, between two records. *)
Lemma first_failing_record_fails_request_witness :
  let adobe := PDict {[ "Name" := PStr "Adobe" ]} in
  let linkedin := PDict {[ "Name" := PStr "LinkedIn" ]} in
  let body := PList [adobe; PStr "oops"; linkedin] in
  check_email_breaches (P:=strict) (with_key "secret")
    (upstream (Return (mkResponse 200 "[..]" (Return body)))) (list Check)
    db_store 0 (EmailCheckRequest.mk "someone@corp.org") []
  = (Raise (HTTPException 500 "'str' object has no attribute 'get'"), []).
Proof.
  intros adobe linkedin body.
  refine (proj2 (first_failing_record_fails_request (P:=strict)
    (with_key "secret") (upstream (Return (mkResponse 200 "[..]" (Return body))))
    (list Check) db_store 0 "someone@corp.org"
    "'str' object has no attribute 'get'" [adobe]
    [mkBreach "Adobe" None None None None None (Some []) None]
    (PStr "oops") [linkedin] [] _ _ eq_refl)).
  - vm_compute; reflexivity.
  - constructor; [vm_compute; reflexivity|constructor].
Defined.

(** ** What the normalizer reads and what it always gives *)

Section Normalizer_reads.
Context {P : Pydantic}.

(** X9: the normalizer reads the sixteen keys and nothing else: two records
    that agree on them normalize alike, whatever other keys they hold. *)
Theorem normalize_reads_only_breach_keys (d1 d2 : gmap string pyval) :
  Forall (λ k, d1 !! k = d2 !! k) breach_keys →
  normalize (PDict d1) = normalize (PDict d2).
Proof.
  unfold breach_keys. intros Hsame.
  repeat (apply Forall_cons in Hsame as [? Hsame]).
  unfold normalize, name_arg, domain_arg, breachDate_arg, addedDate_arg,
    pwnCount_arg, description_arg, dataClasses_arg, isVerified_arg, dict_get.
  by repeat match goal with H : d1 !! _ = d2 !! _ |- _ => rewrite H; clear H end.
Qed.

Lemma py_or_truthy_l (a b c : pyval) :
  truthy a = true → py_or (py_or a b) c = a.
Proof. intros Ha. by rewrite (py_or_truthy a b Ha), (py_or_truthy a c Ha). Qed.

(** X11: a record whose upper-camel keys all hold a truthy value, and whose
    [IsVerified] is not [None], is normalized from these keys alone: the
    lower-camel keys are not looked at. *)
Theorem upper_camel_record_ignores_lower_keys (d d' : gmap string pyval) :
  (∀ f, d' !! key UpperCamel f = d !! key UpperCamel f) →
  (∀ f, f ≠ F_isVerified → truthy (dict_get d (key UpperCamel f)) = true) →
  is_not_None (dict_get d "IsVerified") = true →
  normalize (PDict d') = normalize (PDict d).
Proof.
  intros Hsame Htruthy Hverified.
  assert (∀ f, dict_get d' (key UpperCamel f) = dict_get d (key UpperCamel f))
    as Hget by (intros f; unfold dict_get; by rewrite Hsame).
  pose proof (Htruthy F_name ltac:(done)) as Hname.
  pose proof (Htruthy F_domain ltac:(done)) as Hdomain.
  pose proof (Htruthy F_breachDate ltac:(done)) as HbreachDate.
  pose proof (Htruthy F_addedDate ltac:(done)) as HaddedDate.
  pose proof (Htruthy F_pwnCount ltac:(done)) as HpwnCount.
  pose proof (Htruthy F_description ltac:(done)) as Hdescription.
  pose proof (Htruthy F_dataClasses ltac:(done)) as HdataClasses.
  pose proof (Hget F_name) as Gname.
  pose proof (Hget F_domain) as Gdomain.
  pose proof (Hget F_breachDate) as GbreachDate.
  pose proof (Hget F_addedDate) as GaddedDate.
  pose proof (Hget F_pwnCount) as GpwnCount.
  pose proof (Hget F_description) as Gdescription.
  pose proof (Hget F_dataClasses) as GdataClasses.
  pose proof (Hget F_isVerified) as GisVerified.
  cbn [key] in *.
  unfold normalize, name_arg, domain_arg, breachDate_arg, addedDate_arg,
    pwnCount_arg, description_arg, dataClasses_arg, isVerified_arg.
  rewrite Gname, Gdomain, GbreachDate, GaddedDate, GpwnCount, Gdescription,
    GdataClasses, GisVerified, Hverified.
  rewrite !py_or_truthy_l by done.
  by rewrite !py_or_truthy by done.
Qed.

Context {E : PydanticExact P}.

(** X10: the arguments for [name] and [dataClasses] are never [None]: the
    first is always truthy, so a name that is a string is not empty and is
    the name of the [Breach]; and every [Breach] the normalizer builds has
    a [dataClasses] list. *)
Theorem name_and_dataClasses_always_given (d : gmap string pyval) :
  truthy (name_arg d) = true
  ∧ (∀ s, name_arg d = PStr s →
       s ≠ EmptyString
       ∧ ∀ b, normalize (PDict d) = Return b → name b = s)
  ∧ dataClasses_arg d ≠ PNone
  ∧ ∀ b, normalize (PDict d) = Return b → dataClasses b ≠ None.
Proof.
  assert (truthy (name_arg d) = true) as Hname.
  { unfold name_arg, py_or.
    destruct (truthy (dict_get d "Name")) eqn:Hu; [by rewrite Hu|].
    by destruct (truthy (dict_get d "name")) eqn:Hl; [rewrite Hl|]. }
  assert (dataClasses_arg d ≠ PNone) as Hdc.
  { unfold dataClasses_arg, py_or.
    destruct (truthy (dict_get d "DataClasses")) eqn:Hu.
    - rewrite Hu. by intros Heq; rewrite Heq in Hu.
    - destruct (truthy (dict_get d "dataClasses")) eqn:Hl; [|done].
      by intros Heq; rewrite Heq in Hl. }
  split_and!; [done| |done|].
  - intros s Hs. split.
    + intros ->. by rewrite Hs in Hname.
    + intros b (Hb & _)%normalize_Return.
      rewrite Hs, validate_str_exact in Hb. congruence.
  - intros b (_&_&_&_&_&_& Hb &_)%normalize_Return.
    unfold validate_optional in Hb.
    destruct (dataClasses_arg d) as [|x|x|x|x|x]; [done|..];
      (destruct (validate_list_str _) as [l|]; [|done]);
      injection Hb as <-; discriminate.
Qed.
End Normalizer_reads.

(** A record of the upstream with the keys the normalizer does not read,
    and the same record without them. *)
Lemma normalize_reads_only_breach_keys_witness :
  let bare : gmap string pyval :=
    {[ "Name" := PStr "Adobe"; "PwnCount" := PInt 152445165 ]} in
  let full : gmap string pyval :=
    <[ "Title" := PStr "Adobe" ]> (<[ "IsSensitive" := PBool false ]> bare) in
  normalize (P:=strict) (PDict full) = normalize (P:=strict) (PDict bare).
Proof.
  intros bare full. apply (normalize_reads_only_breach_keys (P:=strict)).
  unfold breach_keys. repeat constructor.
Defined.

(** A record of the upstream next to lower-camel keys that disagree with
    it. *)
Lemma upper_camel_record_ignores_lower_keys_witness :
  let d : gmap string pyval :=
    {[ "Name" := PStr "Adobe"; "Domain" := PStr "adobe.com";
       "BreachDate" := PStr "2013-10-04"; "AddedDate" := PStr "2013-12-04";
       "PwnCount" := PInt 152445165; "Description" := PStr "In October 2013";
       "DataClasses" := PList [PStr "Passwords"];
       "IsVerified" := PBool false ]} in
  let d' : gmap string pyval :=
    <[ "name" := PStr "Other" ]> (<[ "pwnCount" := PInt 1 ]>
      (<[ "isVerified" := PBool true ]> d)) in
  normalize (P:=strict) (PDict d') = normalize (P:=strict) (PDict d).
Proof.
  intros d d'. apply (upper_camel_record_ignores_lower_keys (P:=strict)).
  - intros []; reflexivity.
  - intros [] Hf; try reflexivity. by destruct Hf.
  - reflexivity.
Defined.

(** The normalizer on a record with a lower-camel name and no data
    classes. *)
Lemma name_and_dataClasses_always_given_witness :
  let d : gmap string pyval := {[ "name" := PStr "LinkedIn" ]} in
  truthy (name_arg d) = true
  ∧ name_arg d = PStr "LinkedIn"
  ∧ (∀ b, normalize (P:=strict) (PDict d) = Return b → name b = "LinkedIn")
  ∧ (∀ b, normalize (P:=strict) (PDict d) = Return b → dataClasses b ≠ None).
Proof.
  intros d.
  pose proof (name_and_dataClasses_always_given (P:=strict) d)
    as (Htruthy & Hname & _ & Hdc).
  split; [exact Htruthy|]. split; [reflexivity|].
  split; [exact (proj2 (Hname "LinkedIn" eq_refl))|exact Hdc].
Defined.

(** ** What is persisted *)

Section Persistence_properties.
Context {P : Pydantic}.
Variable getenv : string → option string.
Variable requests_get : Request → except Response.
Variable DB : Type.
Variable create_document : string → Check → M DB ().
Variable utcnow : Z.

(** X12: a request that succeeds makes one call of [create_document], on
    the collection "check", with a document that carries the address of the
    request, the time of [utcnow] and the very fields of the response; the
    response carries the address of the request as the library writes it,
    which is the address itself for one the library has written. *)
Theorem persisted_check_matches_response (address : string) (db db' : DB)
    (resp : EmailCheckResponse.t) :
  check_email_breaches getenv requests_get DB create_document utcnow
    (EmailCheckRequest.mk address) db = (Return resp, db') →
  validate_email address = Some (EmailCheckResponse.email resp)
  ∧ (validate_email address = Some address →
       EmailCheckResponse.email resp = address)
  ∧ ∃ doc,
      db' = (create_document "check" doc db).2
      ∧ email doc = address
      ∧ checked_at doc = utcnow
      ∧ found doc = EmailCheckResponse.found resp
      ∧ count doc = EmailCheckResponse.count resp
      ∧ breaches doc = EmailCheckResponse.breaches resp
      ∧ source doc = EmailCheckResponse.source resp
      ∧ is_demo doc = EmailCheckResponse.is_demo resp.
Proof.
  rewrite check_email_breaches_cases.
  destruct (lookup getenv requests_get address ≫= normalize_all)
    as [bs|[c d|msg]]; [|done..].
  cbn zeta.
  destruct (make_response address (make_check getenv utcnow address bs))
    as [r|[c d|msg]] eqn:Hresp; [|done..].
  apply make_response_Return in Hresp as [Hvalid Hresp].
  intros [= <- <-]. split_and!.
  - done.
  - intros Hsame. rewrite Hsame in Hvalid. by injection Hvalid.
  - exists (make_check getenv utcnow address bs). by rewrite Hresp.
Qed.
End Persistence_properties.

(** A run in demo mode against a database that keeps its documents. *)
Lemma persisted_check_matches_response_witness :
  let doc := make_check no_key 7 "user@test.com" [demo_breach "test.com"] in
  let resp :=
    EmailCheckResponse.mk "user@test.com" true 1 [demo_breach "test.com"]
      "demo" true in
  check_email_breaches (P:=strict) no_key
    (upstream (Raise (Exception "no network"))) (list Check) db_store 7
    (EmailCheckRequest.mk "user@test.com") [] = (Return resp, [doc])
  ∧ @validate_email strict "user@test.com"
      = Some (EmailCheckResponse.email resp)
  ∧ (@validate_email strict "user@test.com" = Some "user@test.com" →
       EmailCheckResponse.email resp = "user@test.com")
  ∧ ∃ doc',
      [doc] = (db_store "check" doc' []).2
      ∧ email doc' = "user@test.com"
      ∧ checked_at doc' = 7
      ∧ found doc' = EmailCheckResponse.found resp
      ∧ count doc' = EmailCheckResponse.count resp
      ∧ breaches doc' = EmailCheckResponse.breaches resp
      ∧ source doc' = EmailCheckResponse.source resp
      ∧ is_demo doc' = EmailCheckResponse.is_demo resp.
Proof.
  intros doc resp.
  assert (check_email_breaches (P:=strict) no_key
            (upstream (Raise (Exception "no network"))) (list Check) db_store 7
            (EmailCheckRequest.mk "user@test.com") [] = (Return resp, [doc]))
    as Hrun by (vm_compute; reflexivity).
  split; [exact Hrun|].
  exact (persisted_check_matches_response (P:=strict) _ _ _ _ _ _ _ _ _ Hrun).
Defined.

(** ** Normalizing a [Breach] that is written out *)

Section Round_trip.
Context {P : Pydantic} {E : PydanticExact P}.
Variable c : field → casing.
Variable omit : field → bool.
Variable b : Breach.
Variable extra : gmap string pyval.
Hypothesis extra_unread : ∀ c' f, extra !! key c' f = None.

Abbreviation raw := (spelled c (breach_vals omit b) extra).

Lemma default_written (o : bool) (v : option pyval) :
  default PNone (written o v) = default PNone v.
Proof. by destruct v, o. Qed.

Lemma or_arg_written (f : field) (v : option pyval) :
  breach_vals omit b f = written (omit f) v →
  (c f = UpperCamel → ∀ x, v = Some x → truthy x = true) →
  py_or (dict_get raw (key UpperCamel f)) (dict_get raw (key LowerCamel f))
    = default PNone v.
Proof.
  intros Hvals Htruthy. rewrite !spelled_get by done.
  rewrite Hvals, default_written.
  destruct (c f); simpl; [|done].
  destruct v as [x|]; simpl; [|done].
  by apply py_or_truthy, Htruthy.
Qed.

Lemma truthy_PStr (s : string) : s ≠ EmptyString → truthy (PStr s) = true.
Proof. intros Hs. simpl. apply negb_true_iff. by apply String.eqb_neq. Qed.

Lemma or_arg_str (f : field) (v : option string) :
  breach_vals omit b f = written (omit f) (PStr <$> v) →
  (c f = UpperCamel → v ≠ Some EmptyString) →
  validate_optional validate_str
    (py_or (dict_get raw (key UpperCamel f)) (dict_get raw (key LowerCamel f)))
    = Some v.
Proof.
  intros Hvals Hne. rewrite (or_arg_written f (PStr <$> v) Hvals).
  - destruct v as [s|]; [apply optional_str_exact|done].
  - intros Hc x Hx. destruct v as [s|]; [|done]. injection Hx as <-.
    apply truthy_PStr. intros ->. by apply Hne.
Qed.

(** X13: normalizing a [Breach] that is written out gives the [Breach]
    back, in either casing of every key, with [None] fields left out or
    written as [null], and next to any other keys, provided the name is not
    empty, [dataClasses] is a list, and no string field spelled in upper
    camel case is empty nor [PwnCount] 0. *)
Theorem normalize_written_breach :
  name b ≠ EmptyString →
  dataClasses b ≠ None →
  (c F_domain = UpperCamel → domain b ≠ Some EmptyString) →
  (c F_breachDate = UpperCamel → breachDate b ≠ Some EmptyString) →
  (c F_addedDate = UpperCamel → addedDate b ≠ Some EmptyString) →
  (c F_pwnCount = UpperCamel → pwnCount b ≠ Some 0) →
  (c F_description = UpperCamel → description b ≠ Some EmptyString) →
  normalize (PDict raw) = Return b.
Proof.
  intros Hname Hdc Hdomain HbreachDate HaddedDate HpwnCount Hdescription.
  apply normalize_Return. split_and!.
  - rewrite name_arg_spelled by done.
    change (default PNone (breach_vals omit b F_name)) with (PStr (name b)).
    rewrite py_or_truthy by by apply truthy_PStr.
    apply validate_str_exact.
  - by apply (or_arg_str F_domain).
  - by apply (or_arg_str F_breachDate).
  - by apply (or_arg_str F_addedDate).
  - change (pwnCount_arg raw)
      with (py_or (dict_get raw (key UpperCamel F_pwnCount))
                  (dict_get raw (key LowerCamel F_pwnCount))).
    rewrite (or_arg_written F_pwnCount (PInt <$> pwnCount b)); [|done|].
    + destruct (pwnCount b) as [n|]; [apply optional_int_exact|done].
    + intros Hc x Hx. destruct (pwnCount b) as [n|]; [|done].
      injection Hx as <-. simpl. apply negb_true_iff, Z.eqb_neq.
      intros ->. by apply HpwnCount.
  - by apply (or_arg_str F_description).
  - rewrite dataClasses_arg_spelled by done.
    cbn [breach_vals]. rewrite default_written.
    destruct (dataClasses b) as [l|]; [|done].
    change (default PNone ((λ l, PList (PStr <$> l)) <$> Some l))
      with (PList (PStr <$> l)).
    assert (py_or (PList (PStr <$> l)) (PList []) = PList (PStr <$> l)) as ->
      by by destruct l.
    apply optional_list_str_exact.
  - rewrite isVerified_arg_spelled by done.
    cbn [breach_vals]. rewrite default_written.
    destruct (isVerified b) as [x|]; [apply optional_bool_exact|done].
Qed.
End Round_trip.

(** A [Breach] with a count of 0, written with lower-camel [name] and
    [pwnCount], [null] for its missing fields, and a key of its own. *)
Lemma normalize_written_breach_witness :
  let b :=
    mkBreach "Adobe" (Some "adobe.com") None (Some "2013-12-04") (Some 0)
      None (Some ["Passwords"]) (Some false) in
  let c := λ f, match f with
                | F_name | F_pwnCount => LowerCamel
                | _ => UpperCamel
                end in
  let extra : gmap string pyval := {[ "Title" := PStr "Adobe" ]} in
  normalize (P:=strict)
    (PDict (spelled c (breach_vals (λ _, false) b) extra)) = Return b.
Proof.
  intros b c extra. apply (normalize_written_breach (P:=strict)).
  - intros [] []; reflexivity.
  - discriminate.
  - discriminate.
  - intros _; discriminate.
  - intros _; discriminate.
  - intros _; discriminate.
  - intros Hc; discriminate Hc.
  - intros _; discriminate.
Defined.

(** ** The upstream request and the detail of its failure *)

Lemma py_prefix_app (n : nat) (s : string) :
  ∃ rest, s = py_prefix n s +:+ rest.
Proof.
  revert s. induction n as [|n IH]; intros s.
  - exists s. by destruct s.
  - destruct s as [|a s]; [by exists EmptyString|].
    destruct (IH s) as [rest Hrest]. exists rest.
    change (String a s = String a (py_prefix n s +:+ rest)).
    by rewrite <-Hrest.
Qed.

Lemma py_prefix_length_min (n : nat) (s : string) :
  String.length (py_prefix n s) = Nat.min n (String.length s).
Proof.
  revert s. induction n as [|n IH]; intros [|a s]; simpl; try done.
  by rewrite IH.
Qed.

Section Upstream_properties.
Context {P : Pydantic}.
Variable getenv : string → option string.
Variable DB : Type.
Variable create_document : string → Check → M DB ().
Variable utcnow : Z.

(** X14: the detail of an upstream failure is the start of the upstream
    body: the body is the detail followed by what was cut off, the detail
    has 200 characters or all those of the body when there are fewer, and a
    body of at most 200 characters is reported whole. *)
Theorem upstream_failure_detail_is_prefix
    (requests_get : Request → except Response) (email key : string)
    (resp : Response) (db : DB) :
  getenv "HIBP_API_KEY" = Some key →
  key ≠ EmptyString →
  requests_get (hibp_request key email) = Return resp →
  status_code resp ≠ 404 →
  400 ≤ status_code resp < 600 →
  ∃ detail rest,
    check_email_breaches getenv requests_get DB create_document utcnow
      (EmailCheckRequest.mk email) db
      = (Raise (HTTPException (status_code resp) detail), db)
    ∧ text resp = detail +:+ rest
    ∧ String.length detail = Nat.min 200 (String.length (text resp))
    ∧ ((String.length (text resp) ≤ 200)%nat → detail = text resp).
Proof.
  intros Hkey Hne Hget H404 Herr.
  destruct (py_prefix_app 200 (text resp)) as [rest Hrest].
  exists (py_prefix 200 (text resp)), rest. split_and!.
  - rewrite check_email_breaches_cases, (lookup_with_key _ _ _ _ Hkey Hne), Hget.
    apply Z.eqb_neq in H404 as ->. unfold ok.
    assert ((400 <=? status_code resp) && (status_code resp <? 600) = true)
      as -> by (apply andb_true_iff; lia).
    done.
  - exact Hrest.
  - apply py_prefix_length_min.
  - apply py_prefix_short.
Qed.

(** X15: with a key set, the one thing the handler takes from the upstream
    is its answer to the request for the address: two upstreams that answer
    this request alike give the same outcome.  The request carries the key
    in its [hibp-api-key] header next to the [User-Agent], asks for the
    untruncated breaches with a timeout of 12, and its URL ends in the
    address. *)
Theorem real_mode_asks_one_request
    (requests_get requests_get' : Request → except Response)
    (email key : string) (db : DB) :
  getenv "HIBP_API_KEY" = Some key →
  key ≠ EmptyString →
  requests_get (hibp_request key email)
    = requests_get' (hibp_request key email) →
  check_email_breaches getenv requests_get DB create_document utcnow
    (EmailCheckRequest.mk email) db
    = check_email_breaches getenv requests_get' DB create_document utcnow
        (EmailCheckRequest.mk email) db
  ∧ headers (hibp_request key email) !! "hibp-api-key" = Some key
  ∧ headers (hibp_request key email) !! "User-Agent" = Some "BreachGuard/1.0"
  ∧ params (hibp_request key email) !! "truncateResponse" = Some "false"
  ∧ timeout (hibp_request key email) = 12
  ∧ url (hibp_request key email)
      = "https://haveibeenpwned.com/api/v3/breachedaccount/" +:+ email.
Proof.
  intros Hkey Hne Hsame. split_and!; try done.
  by rewrite !check_email_breaches_cases,
    !(lookup_with_key _ _ _ _ Hkey Hne), Hsame.
Qed.
End Upstream_properties.

(** An upstream that answers 503 with a short body. *)
Lemma upstream_failure_detail_is_prefix_witness :
  let unavailable :=
    mkResponse 503 "Service Unavailable" (Raise (Exception "Expecting value")) in
  (status_code unavailable ≠ 404 ∧ 400 ≤ status_code unavailable < 600)
  ∧ ∃ detail rest,
      check_email_breaches (P:=strict) (with_key "secret")
        (upstream (Return unavailable)) (list Check) db_store 0
        (EmailCheckRequest.mk "someone@corp.org") []
        = (Raise (HTTPException (status_code unavailable) detail), [])
      ∧ text unavailable = detail +:+ rest
      ∧ String.length detail
          = Nat.min 200 (String.length (text unavailable))
      ∧ ((String.length (text unavailable) ≤ 200)%nat →
           detail = text unavailable).
Proof.
  intros unavailable.
  assert (status_code unavailable ≠ 404) as H404 by discriminate.
  assert (400 ≤ status_code unavailable < 600) as Herr by (simpl; lia).
  split; [done|].
  refine (upstream_failure_detail_is_prefix (P:=strict) (with_key "secret")
    (list Check) db_store 0 (upstream (Return unavailable))
    "someone@corp.org" "secret" unavailable [] eq_refl _ eq_refl H404 Herr).
  discriminate.
Defined.

(** Two upstreams that differ on every request but the handler's. *)
Lemma real_mode_asks_one_request_witness :
  let answer := Return (mkResponse 200 "[]" (Return (PList []))) in
  let elsewhere : Request → except Response :=
    λ rq, if String.eqb (url rq)
               "https://haveibeenpwned.com/api/v3/breachedaccount/a@corp.org"
          then answer else Raise (Exception "no route") in
  check_email_breaches (P:=strict) (with_key "secret") (upstream answer)
    (list Check) db_store 0 (EmailCheckRequest.mk "a@corp.org") []
  = check_email_breaches (P:=strict) (with_key "secret") elsewhere
      (list Check) db_store 0 (EmailCheckRequest.mk "a@corp.org") [].
Proof.
  intros answer elsewhere.
  refine (proj1 (real_mode_asks_one_request (P:=strict) (with_key "secret")
    (list Check) db_store 0 (upstream answer) elsewhere "a@corp.org" "secret"
    [] eq_refl _ eq_refl)).
  discriminate.
Defined.
